(** * AIagent_Assistant: intent detection and task dispatch

    A shallow embedding of [backend/services/intent_detector.py] and
    [backend/services/task_executor.py], and the properties of the
    classifier and of the dispatcher proved over it.

    Python [str] values are modelled as [string]: a sequence of characters
    whose codes are the code points U+0000..U+00FF.  On that range
    [str.lower], [str.strip] and the classes [\s] and [\w] of [re] are
    given exactly as CPython computes them.  Calls to the logger are left
    out; the handlers are coroutines that never suspend and are run as
    plain calls. *)

From Stdlib Require Import String Ascii List Bool Arith Lia.
From Stdlib Require Import PrimFloat.
Import ListNotations.
Open Scope string_scope.

(** ** Python strings *)

Module PyStr.

(** Code point of a character. *)
Definition ord (c : ascii) : nat := nat_of_ascii c.

Definition between (lo hi n : nat) : bool := ((lo <=? n) && (n <=? hi))%nat.

(** [str.isspace] on one character: TAB..CR, FS..US, SPACE, NEL, NBSP. *)
Definition isspace (c : ascii) : bool :=
  let n := ord c in
  between 9 13 n || between 28 32 n || (n =? 133)%nat || (n =? 160)%nat.

(** [str.lower] on one character: A-Z and the Latin-1 capitals
    U+00C0..U+00DE (the multiplication sign U+00D7 apart) move up by 32. *)
Definition lower_char (c : ascii) : ascii :=
  let n := ord c in
  if between 65 90 n || ((between 192 222 n) && negb (n =? 215)%nat)
  then ascii_of_nat (n + 32)
  else c.

(** [s.lower()] *)
Fixpoint lower (s : string) : string :=
  match s with
  | EmptyString => EmptyString
  | String c s' => String (lower_char c) (lower s')
  end.

(** [s.lstrip()] *)
Fixpoint lstrip (s : string) : string :=
  match s with
  | EmptyString => EmptyString
  | String c s' => if isspace c then lstrip s' else s
  end.

(** [s.rstrip()] *)
Fixpoint rstrip (s : string) : string :=
  match s with
  | EmptyString => EmptyString
  | String c s' =>
      match rstrip s' with
      | EmptyString => if isspace c then EmptyString else String c EmptyString
      | r => String c r
      end
  end.

(** [s.strip()] *)
Definition strip (s : string) : string := rstrip (lstrip s).

(** [sub in s] *)
Fixpoint str_in (sub s : string) : bool :=
  prefix sub s ||
  match s with
  | EmptyString => false
  | String _ s' => str_in sub s'
  end.

(** [s[:n]] for [n >= 0] *)
Fixpoint slice_to (n : nat) (s : string) : string :=
  match n, s with
  | S n', String c s' => String c (slice_to n' s')
  | _, _ => EmptyString
  end.

(** [any(p(x) for x in xs)] *)
Definition any {A : Type} (p : A -> bool) (xs : list A) : bool := existsb p xs.

(** [sum(1 for x in xs if p(x))] *)
Fixpoint sum_ones {A : Type} (p : A -> bool) (xs : list A) : nat :=
  match xs with
  | [] => 0
  | x :: xs' => (if p x then 1 else 0) + sum_ones p xs'
  end.

(** First and last character of a string. *)
Definition first_char (s : string) : option ascii :=
  match s with
  | EmptyString => None
  | String c _ => Some c
  end.

Fixpoint last_char (s : string) : option ascii :=
  match s with
  | EmptyString => None
  | String c EmptyString => Some c
  | String _ s' => last_char s'
  end.

(** A word that neither starts nor ends with white space. *)
Definition solid (w : string) : bool :=
  match first_char w, last_char w with
  | Some a, Some b => negb (isspace a) && negb (isspace b)
  | _, _ => false
  end.

End PyStr.

(** ** The fragment of [re] that the code patterns use *)

Module Re.
Import PyStr.

(** [\w] on one character: letters, digits and numerics of Latin-1, and
    the underscore. *)
Definition isword (c : ascii) : bool :=
  let n := ord c in
  between 48 57 n || between 65 90 n || (n =? 95)%nat || between 97 122 n ||
  (n =? 170)%nat || between 178 179 n || (n =? 181)%nat || between 185 186 n ||
  between 188 190 n || between 192 214 n || between 216 246 n ||
  between 248 255 n.

(** Character sets: a literal character, [\s], [\w], [[\w.]], [[\s\S]]. *)
Inductive cset : Type :=
| Chr (c : ascii)
| Space
| Word
| WordDot
| AnyChar.

Definition cset_mem (k : cset) (a : ascii) : bool :=
  match k with
  | Chr c => Ascii.eqb c a
  | Space => isspace a
  | Word => isword a
  | WordDot => isword a || Ascii.eqb "."%char a
  | AnyChar => isspace a || negb (isspace a)
  end.

Inductive regex : Type :=
| Empty                      (* matches nothing *)
| Eps                        (* matches the empty string *)
| Set_ (k : cset)
| Cat (r1 r2 : regex)
| Alt (r1 r2 : regex)
| Star (r : regex).

(** [r+] *)
Definition Plus (r : regex) : regex := Cat r (Star r).

(** Literal text. *)
Fixpoint Lit (s : string) : regex :=
  match s with
  | EmptyString => Eps
  | String c s' => Cat (Set_ (Chr c)) (Lit s')
  end.

(** [r1 r2 ... rn] *)
Fixpoint Seq (rs : list regex) : regex :=
  match rs with
  | [] => Eps
  | [r] => r
  | r :: rs' => Cat r (Seq rs')
  end.

Fixpoint nullable (r : regex) : bool :=
  match r with
  | Empty => false
  | Eps => true
  | Set_ _ => false
  | Cat r1 r2 => nullable r1 && nullable r2
  | Alt r1 r2 => nullable r1 || nullable r2
  | Star _ => true
  end.

(** What is left of [r] once the character [a] has been read. *)
Fixpoint deriv (a : ascii) (r : regex) : regex :=
  match r with
  | Empty => Empty
  | Eps => Empty
  | Set_ k => if cset_mem k a then Eps else Empty
  | Cat r1 r2 =>
      if nullable r1
      then Alt (Cat (deriv a r1) r2) (deriv a r2)
      else Cat (deriv a r1) r2
  | Alt r1 r2 => Alt (deriv a r1) (deriv a r2)
  | Star r1 => Cat (deriv a r1) (Star r1)
  end.

(** [pattern.match(s) is not None]: some prefix of [s] matches. *)
Fixpoint match_ (r : regex) (s : string) : bool :=
  nullable r ||
  match s with
  | EmptyString => false
  | String c s' => match_ (deriv c r) s'
  end.

(** [pattern.search(s)] as a truth value: a match starts somewhere in [s].
    Whether a repetition is greedy or lazy changes which match is
    returned, not whether there is one. *)
Fixpoint search (r : regex) (s : string) : bool :=
  match_ r s ||
  match s with
  | EmptyString => false
  | String _ s' => search r s'
  end.

(** The words of a regular expression. *)
Inductive matches : regex -> string -> Prop :=
| MEps : matches Eps ""
| MSet k c : cset_mem k c = true -> matches (Set_ k) (String c "")
| MCat r1 r2 s1 s2 :
    matches r1 s1 -> matches r2 s2 -> matches (Cat r1 r2) (s1 ++ s2)
| MAltL r1 r2 s : matches r1 s -> matches (Alt r1 r2) s
| MAltR r1 r2 s : matches r2 s -> matches (Alt r1 r2) s
| MStar0 r : matches (Star r) ""
| MStarS r c s1 s2 :
    matches r (String c s1) -> matches (Star r) s2 ->
    matches (Star r) (String c s1 ++ s2).

End Re.

(** ** [services/intent_detector.py] *)

Module IntentDetector.
Import PyStr Re.

#[local] Set Warnings "-inexact-float".

(** A [dict] with string keys, in insertion order. *)
Definition dict (V : Type) : Type := list (string * V).

(** [d.get(key, default)] *)
Fixpoint dict_get {V : Type} (d : dict V) (key : string) (default : V) : V :=
  match d with
  | [] => default
  | (k, v) :: d' => if String.eqb k key then v else dict_get d' key default
  end.

Definition INTENT_KEYWORDS : dict (list string) :=
  [ ("summarization",
      [ "summarize"; "summary"; "tldr"; "brief"; "overview";
        "recap"; "gist"; "key points"; "main points"; "condense" ]);
    ("sentiment_analysis",
      [ "sentiment"; "feeling"; "emotion"; "tone"; "mood";
        "opinion"; "attitude"; "positive"; "negative" ]);
    ("code_explanation",
      [ "explain code"; "what does this code"; "code explanation";
        "how does this work"; "analyze code"; "review code";
        "debug"; "find bugs"; "what is this function" ]);
    ("action_items",
      [ "action item"; "action items"; "todo"; "to-do"; "task";
        "tasks"; "next steps"; "follow up"; "deliverable" ]);
    ("youtube_transcript",
      [ "youtube.com"; "youtu.be"; "youtube"; "video transcript" ]) ].

Definition s_plus : regex := Plus (Set_ Space).
Definition s_star : regex := Star (Set_ Space).
Definition w_plus : regex := Plus (Set_ Word).
Definition wdot_plus : regex := Plus (Set_ WordDot).

Definition CODE_PATTERNS : list regex :=
  [ Seq [Lit "def"; s_plus; w_plus; s_star; Lit "("];       (* def\s+\w+\s*\(      *)
    Seq [Lit "function"; s_plus; w_plus; s_star; Lit "("];  (* function\s+\w+\s*\( *)
    Seq [Lit "class"; s_plus; w_plus];                      (* class\s+\w+         *)
    Seq [Lit "import"; s_plus; wdot_plus];                  (* import\s+[\w.]+     *)
    Seq [Lit "from"; s_plus; wdot_plus; s_plus; Lit "import"];
                                                            (* from\s+[\w.]+\s+import *)
    Seq [Lit "const"; s_plus; w_plus; s_star; Lit "="];     (* const\s+\w+\s*=     *)
    Seq [Lit "let"; s_plus; w_plus; s_star; Lit "="];       (* let\s+\w+\s*=       *)
    Seq [Lit "var"; s_plus; w_plus; s_star; Lit "="];       (* var\s+\w+\s*=       *)
    Seq [Lit "public"; s_plus; w_plus];                     (* public\s+\w+        *)
    Seq [Lit "private"; s_plus; w_plus];                    (* private\s+\w+       *)
    Seq [Lit "```"; Star (Set_ AnyChar); Lit "```"] ].      (* ```[\s\S]*?```      *)

(** [__init__]: the patterns, compiled. *)
Definition compiled_patterns : list regex := CODE_PATTERNS.

Definition _contains_keywords (text intent : string) : bool :=
  let keywords := dict_get INTENT_KEYWORDS intent [] in
  any (fun keyword => str_in keyword text) keywords.

Definition _contains_code (text : string) : bool :=
  any (fun pattern => search pattern text) compiled_patterns.

Definition explanation_words : list string :=
  [ "explain"; "what does"; "how does"; "what is";
    "analyze"; "review"; "understand"; "clarify" ].

Definition _contains_explanation_request (text : string) : bool :=
  any (fun word => str_in word text) explanation_words.

Definition action_verbs : list string :=
  [ "summarize"; "explain"; "analyze"; "extract";
    "find"; "list"; "show"; "tell"; "give";
    "identify"; "detect"; "calculate"; "convert" ].

Definition _has_clear_instruction (text : string) : bool :=
  if String.eqb text "" || (String.length text <? 5)%nat then false
  else any (fun verb => str_in verb text) action_verbs.

(** The loop of [detect] over [INTENT_KEYWORDS.items()]: [Some intent]
    when the loop returns, [None] when it runs to its end. *)
Fixpoint scan_intents (items : dict (list string)) (text_lower : string)
  : option string :=
  match items with
  | [] => None
  | (intent, _) :: items' =>
      if String.eqb intent "youtube_transcript" then
        scan_intents items' text_lower
      else if _contains_keywords text_lower intent then Some intent
      else scan_intents items' text_lower
  end.

Definition detect (text : string) (has_file : bool) : string :=
  let text := if String.eqb text "" then "" else text in
  let text_lower := strip (lower text) in
  let after_code :=
    match scan_intents INTENT_KEYWORDS text_lower with
    | Some intent => intent
    | None =>
        if has_file && negb (_has_clear_instruction text_lower)
        then "needs_clarification"
        else "conversational"
    end in
  if _contains_keywords text_lower "youtube_transcript" then
    "youtube_transcript"
  else if _contains_code text then
    if _contains_explanation_request text_lower then "code_explanation"
    else after_code
  else after_code.

Definition get_confidence (text : string) (has_file : bool) : float :=
  let intent := detect text has_file in
  if String.eqb intent "needs_clarification" then 0.0%float
  else
    let text_lower := lower text in
    let keyword_matches :=
      sum_ones (fun keyword => str_in keyword text_lower)
               (dict_get INTENT_KEYWORDS intent []) in
    if (2 <=? keyword_matches)%nat then 0.95%float
    else if (keyword_matches =? 1)%nat then 0.75%float
    else 0.5%float.

(** The confidence score as the specification words it: the number of
    keywords of the intent's own set that occur in the lowercased text,
    mapped to a score. *)
Definition own_keywords (intent : string) : list string :=
  dict_get INTENT_KEYWORDS intent [].

Definition matching_keywords (intent text : string) : list string :=
  filter (fun keyword => str_in keyword (lower text)) (own_keywords intent).

Definition confidence_spec (text : string) (has_file : bool) : float :=
  let intent := detect text has_file in
  if String.eqb intent "needs_clarification" then 0%float
  else
    match List.length (matching_keywords intent text) with
    | 0 => 0.5%float
    | 1 => 0.75%float
    | _ => 0.95%float
    end.

(** [0 <= x <= 1] on floats. *)
Definition in_unit_interval (x : float) : Prop :=
  PrimFloat.leb 0%float x = true /\ PrimFloat.leb x 1%float = true.

(** A text "matches an intent keyword" when a keyword of some entry of
    the table occurs in it. *)
Definition matches_some_keyword (text : string) : bool :=
  any (fun item => any (fun keyword => str_in keyword text) (snd item))
      INTENT_KEYWORDS.

End IntentDetector.

(** ** [services/task_executor.py] *)

Module TaskExecutor.
Import PyStr.

(** *** Values, exceptions and the provider *)

(** The values held by the result dictionaries. *)
Inductive value : Type :=
| Str (s : string)
| Bool (b : bool).

(** A result dictionary, in insertion order. *)
Definition pydict : Type := list (string * value).

(** [d.get(key)] *)
Fixpoint lookup (d : pydict) (key : string) : option value :=
  match d with
  | [] => None
  | (k, v) :: d' => if String.eqb k key then Some v else lookup d' key
  end.

(** What a [raise] throws: an instance of [Exception], or an instance of
    [BaseException] that is not an [Exception] ([asyncio.CancelledError],
    [KeyboardInterrupt], [SystemExit]).  Either carries its [str(e)]. *)
Inductive exn : Type :=
| Exception (message : string)
| BaseException (message : string).

(** [str(e)] *)
Definition str (e : exn) : string :=
  match e with
  | Exception message => message
  | BaseException message => message
  end.

(** [isinstance(e, Exception)] *)
Definition is_exception (e : exn) : bool :=
  match e with
  | Exception _ => true
  | BaseException _ => false
  end.

(** One entry of [messages]. *)
Record message : Type := { role : string; msg_content : string }.

(** The keyword arguments of [client.messages.create]. *)
Record request : Type :=
  { model : string; max_tokens : nat; messages : list message }.

(** A content block of a response; only a text block has [.text]. *)
Inductive block : Type :=
| TextBlock (text : string)
| OtherBlock (class_name : string).

Record response : Type := { resp_content : list block }.

Inductive outcome (A : Type) : Type :=
| Returned (a : A)
| Raised (e : exn).
Arguments Returned {A} a.
Arguments Raised {A} e.

(** The provider: what [client.messages.create] does with a request. *)
Definition client : Type := request -> outcome response.

(** A computation of the executor: given the client, the requests it
    sent, in order, and how it ended. *)
Definition M (A : Type) : Type := client -> list request * outcome A.

Definition ret {A : Type} (a : A) : M A := fun _ => ([], Returned a).

Definition raise {A : Type} (e : exn) : M A := fun _ => ([], Raised e).

Definition bind {A B : Type} (m : M A) (f : A -> M B) : M B :=
  fun c =>
    match m c with
    | (sent, Returned a) => let (sent', o) := f a c in ((sent ++ sent')%list, o)
    | (sent, Raised e) => (sent, Raised e)
    end.

(** [try: m  except Exception as e: h e]: the clause catches the
    instances of [Exception]; anything else goes on up. *)
Definition try_except {A : Type} (m : M A) (h : exn -> M A) : M A :=
  fun c =>
    match m c with
    | (sent, Returned a) => (sent, Returned a)
    | (sent, Raised e) =>
        if is_exception e then
          let (sent', o) := h e c in ((sent ++ sent')%list, o)
        else (sent, Raised e)
    end.

Notation "x <- m ;; k" := (bind m (fun x => k))
  (at level 61, m at next level, right associativity).

(** [self.client.messages.create(model=..., max_tokens=..., messages=...)] *)
Definition messages_create (md : string) (mt : nat) (ms : list message)
  : M response :=
  fun c =>
    let req := {| model := md; max_tokens := mt; messages := ms |} in
    ([req], c req).

(** [response.content[0].text] *)
Definition first_text (r : response) : M string :=
  match resp_content r with
  | [] => raise (Exception "list index out of range")
  | TextBlock t :: _ => ret t
  | OtherBlock cls :: _ =>
      raise (Exception ("'" ++ cls ++ "' object has no attribute 'text'"))
  end.

(** *** The prompt templates *)

(** The double quote and the line feed. *)
Definition dq : string := String "034"%char EmptyString.
Definition nl : string := String "010"%char EmptyString.

(** The bullet U+2022 of the summary template lies outside U+0000..U+00FF
    and is kept as its three UTF-8 bytes. *)
Definition bullet : string := "•".

Definition summary_template : string :=
  "Provide a comprehensive summary in this EXACT format:

**One-line summary:** [Write a single, concise sentence capturing the main point]

**Key Points:**
" ++ bullet ++ " [First key point]
" ++ bullet ++ " [Second key point]
" ++ bullet ++ " [Third key point]

**Detailed Summary:**
[Write exactly 5 sentences providing a thorough overview of the content. Cover the main themes, important details, and conclusions.]

Content to summarize:
".

Definition sentiment_template : string :=
  "Analyze the sentiment of the following content and return in this EXACT format:

**Sentiment:** [Choose: Positive, Negative, Neutral, or Mixed]
**Confidence:** [Provide percentage, e.g., 85%]
**Justification:** [Write ONE clear sentence explaining why you chose this sentiment]

Content to analyze:
".

Definition code_template : string :=
  "Analyze this code and provide a comprehensive explanation in this format:

**Purpose:**
[Explain what this code is designed to do]

**Logic Explanation:**
[Provide a step-by-step breakdown of how the code works]

**Bugs/Issues:**
[Identify any bugs, potential issues, or code smells. If none found, state " ++ dq ++ "No obvious bugs detected." ++ dq ++ "]

**Complexity Analysis:**
[Provide time and space complexity analysis if applicable. Use Big O notation.]

Code to analyze:
".

Definition actions_template : string :=
  "Extract all action items, tasks, and to-dos from the following content.

Format your response as:

**Action Items:**
1. [Action item with owner if mentioned and deadline if specified]
2. [Action item with owner if mentioned and deadline if specified]
...

If no action items are found, respond with: " ++ dq ++ "No action items found in the content." ++ dq ++ "

Content to analyze:
".

Definition clarification_template : string :=
  "The user has provided content but hasn't clearly specified what they want to do with it.

Ask them a short, clear clarifying question. Examples:
- " ++ dq ++ "What would you like me to do with this content? I can summarize it, analyze sentiment, explain code, extract action items, or answer questions about it." ++ dq ++ "
- " ++ dq ++ "How can I help you with this file?" ++ dq ++ "
- " ++ dq ++ "What specific information are you looking for from this content?" ++ dq ++ "

Keep the question friendly and concise. Offer specific options based on what seems most relevant.

User's query: ".

Definition conversational_template : string :=
  "Provide a helpful, friendly response to the user's question or comment.

Be concise but informative. If the user is asking about specific content, reference it directly.

User's query: ".

Definition youtube_template : string :=
  "The user provided a YouTube URL but the transcript could not be fetched automatically.

Explain this limitation politely and suggest:
1. They can try pasting the transcript manually if they have access to it
2. They can describe what they'd like to know about the video
3. In a production system, this would use the YouTube Transcript API

User's query: ".

(** *** The handlers *)

Definition self_model : string := "claude-sonnet-4-20250514".

Definition user (prompt : string) : list message :=
  [ {| role := "user"; msg_content := prompt |} ].

Definition _handle_summary (content query : string) : M pydict :=
  let prompt := summary_template ++ content ++ nl in
  response <- messages_create self_model 1500 (user prompt) ;;
  text <- first_text response ;;
  ret [ ("task", Str "summarization"); ("result", Str text) ].

Definition _handle_sentiment (content query : string) : M pydict :=
  let prompt := sentiment_template ++ content ++ nl in
  response <- messages_create self_model 500 (user prompt) ;;
  text <- first_text response ;;
  ret [ ("task", Str "sentiment_analysis"); ("result", Str text) ].

Definition _handle_code (content query : string) : M pydict :=
  let prompt := code_template ++ content ++ nl in
  response <- messages_create self_model 2000 (user prompt) ;;
  text <- first_text response ;;
  ret [ ("task", Str "code_explanation"); ("result", Str text) ].

Definition _handle_actions (content query : string) : M pydict :=
  let prompt := actions_template ++ content ++ nl in
  response <- messages_create self_model 1000 (user prompt) ;;
  text <- first_text response ;;
  ret [ ("task", Str "action_items"); ("result", Str text) ].

Definition clarification_prompt (content query : string) : string :=
  clarification_template ++ query ++ nl ++ "Content provided: " ++
  slice_to 200 content ++ "..." ++ nl.

Definition _handle_clarification (content query : string) : M pydict :=
  let prompt := clarification_prompt content query in
  response <- messages_create self_model 300 (user prompt) ;;
  text <- first_text response ;;
  ret [ ("task", Str "clarification"); ("result", Str text) ].

Definition conversational_prompt (content query : string) : string :=
  conversational_template ++ query ++ nl ++
  (if negb (String.eqb content query) then "Context: " ++ content else "") ++
  nl.

Definition _handle_conversational (content query : string) : M pydict :=
  let prompt := conversational_prompt content query in
  response <- messages_create self_model 1000 (user prompt) ;;
  text <- first_text response ;;
  ret [ ("task", Str "conversational"); ("result", Str text) ].

Definition youtube_marker : string := "[YouTube Transcript]:".

Definition youtube_fallback_prompt (query : string) : string :=
  youtube_template ++ query ++ nl.

Definition _handle_youtube (content query : string) : M pydict :=
  if str_in youtube_marker content then
    if any (fun word => str_in word (lower query))
           ["summarize"; "summary"; "tldr"] then
      _handle_summary content query
    else if any (fun word => str_in word (lower query))
                ["sentiment"; "tone"] then
      _handle_sentiment content query
    else
      _handle_summary content query
  else
    let prompt := youtube_fallback_prompt query in
    response <- messages_create self_model 500 (user prompt) ;;
    text <- first_text response ;;
    ret [ ("task", Str "youtube_transcript"); ("result", Str text) ].

(** *** The dispatcher *)

Definition handler : Type := string -> string -> M pydict.

Definition handlers : list (string * handler) :=
  [ ("summarization", _handle_summary);
    ("sentiment_analysis", _handle_sentiment);
    ("code_explanation", _handle_code);
    ("action_items", _handle_actions);
    ("needs_clarification", _handle_clarification);
    ("conversational", _handle_conversational);
    ("youtube_transcript", _handle_youtube) ].

(** [handlers.get(task_type, default)] *)
Fixpoint handlers_get (hs : list (string * handler)) (task_type : string)
    (default : handler) : handler :=
  match hs with
  | [] => default
  | (k, h) :: hs' =>
      if String.eqb k task_type then h else handlers_get hs' task_type default
  end.

Definition execute (task_type content original_query : string) : M pydict :=
  let handler := handlers_get handlers task_type _handle_conversational in
  try_except
    (handler content original_query)
    (fun e =>
       ret [ ("task", Str task_type);
             ("result", Str ("Error executing task: " ++ str e));
             ("error", Bool true) ]).

(** The request a handler sends for a prompt and a token ceiling. *)
Definition prompt_request (ceiling : nat) (prompt : string) : request :=
  {| model := self_model; max_tokens := ceiling; messages := user prompt |}.

(** The shape the handlers share: one request, then the text of the first
    block of the answer under a task label. *)
Definition ask (ceiling : nat) (prompt label : string) : M pydict :=
  response <- messages_create self_model ceiling (user prompt) ;;
  text <- first_text response ;;
  ret [ ("task", Str label); ("result", Str text) ].

(** The dictionary [execute] builds in its [except] branch. *)
Definition error_result (task_type : string) (e : exn) : pydict :=
  [ ("task", Str task_type);
    ("result", Str ("Error executing task: " ++ str e));
    ("error", Bool true) ].

(** Which words of the query steer a transcript to the summary and which
    to the sentiment analysis. *)
Definition asks_summary (query : string) : bool :=
  any (fun word => str_in word (lower query)) ["summarize"; "summary"; "tldr"].

Definition asks_sentiment (query : string) : bool :=
  any (fun word => str_in word (lower query)) ["sentiment"; "tone"].

(** Three providers to run the executor on: one that answers every
    request with a single text block, one that fails every request with
    an [Exception], one whose call is cut short by a [BaseException]. *)
Definition answering (text : string) : client :=
  fun _ => Returned {| resp_content := [TextBlock text] |}.

Definition failing (msg : string) : client :=
  fun _ => Raised (Exception msg).

Definition interrupted (msg : string) : client :=
  fun _ => Raised (BaseException msg).

End TaskExecutor.

(** ** [services/youtube_service.py] *)

Module YouTubeService.
Import PyStr.

(** *** The fragment of [re] that the URL patterns use

    The URL patterns are built from literal text, optional non-capturing
    groups, a counted character set and one capturing group.  A pattern is
    run the way the backtracking matcher of [re] runs it: every way to
    match at a position, in the order in which the matcher tries them. *)

Inductive pat : Type :=
| Text (w : string)                        (* literal text *)
| Opt (p : pat)                            (* (?:p)?, greedy *)
| Then (p q : pat)                         (* p q *)
| Repeat (n : nat) (k : ascii -> bool)     (* [k]{n} *)
| Group (p : pat).                         (* (p), group 1 *)

(** [s] without its prefix [w], when [s] starts with [w]. *)
Fixpoint drop_prefix (w s : string) : option string :=
  match w, s with
  | EmptyString, _ => Some s
  | String a w', String b s' =>
      if Ascii.eqb a b then drop_prefix w' s' else None
  | String _ _, EmptyString => None
  end.

(** [n] characters of the set [k] at the front of [s], and what follows. *)
Fixpoint take_set (n : nat) (k : ascii -> bool) (s : string)
  : option (string * string) :=
  match n with
  | 0 => Some (EmptyString, s)
  | S n' =>
      match s with
      | EmptyString => None
      | String c s' =>
          if k c then
            match take_set n' k s' with
            | Some (t, r) => Some (String c t, r)
            | None => None
            end
          else None
      end
  end.

(** A state of the matcher: the text not yet read and group 1. *)
Definition mstate : Type := (string * option string)%type.

(** Every way to match [p] at the front of [s], first choice first. *)
Fixpoint run (p : pat) (s : string) (g : option string) : list mstate :=
  match p with
  | Text w =>
      match drop_prefix w s with
      | Some r => [(r, g)]
      | None => []
      end
  | Opt p1 => (run p1 s g ++ [(s, g)])%list
  | Then p1 p2 => flat_map (fun st => run p2 (fst st) (snd st)) (run p1 s g)
  | Repeat n k =>
      match take_set n k s with
      | Some (_, r) => [(r, g)]
      | None => []
      end
  | Group p1 =>
      map (fun st =>
             (fst st,
              Some (slice_to (String.length s - String.length (fst st)) s)))
          (run p1 s g)
  end.

(** [pattern.search(s)]: [None] when there is no match, else group 1 of
    the match at the leftmost position that has one. *)
Fixpoint search (p : pat) (s : string) : option (option string) :=
  match run p s None with
  | st :: _ => Some (snd st)
  | [] =>
      match s with
      | EmptyString => None
      | String _ s' => search p s'
      end
  end.

(** *** The service *)

(** [[a-zA-Z0-9_-]] *)
Definition is_id_char (c : ascii) : bool :=
  let n := ord c in
  between 97 122 n || between 65 90 n || between 48 57 n ||
  (n =? 95)%nat || (n =? 45)%nat.

(** [(?:https?://)?] and [(?:www\.)?] *)
Definition scheme : pat :=
  Opt (Then (Text "http") (Then (Opt (Text "s")) (Text "://"))).
Definition www : pat := Opt (Text "www.").

(** [([a-zA-Z0-9_-]{11})] *)
Definition video_id_group : pat := Group (Repeat 11 is_id_char).

Definition url_pattern (site : string) : pat :=
  Then scheme (Then www (Then (Text site) video_id_group)).

Definition URL_PATTERNS : list pat :=
  [ url_pattern "youtube.com/watch?v=";
    url_pattern "youtu.be/";
    url_pattern "youtube.com/embed/" ].

Definition compiled_patterns : list pat := URL_PATTERNS.

(** [str(match.group(1))] inside an f-string. *)
Definition format_group (g : option string) : string :=
  match g with
  | Some t => t
  | None => "None"
  end.

(** The loop of [extract_url]. *)
Fixpoint extract_url_loop (patterns : list pat) (text : string)
  : option string :=
  match patterns with
  | [] => None
  | pattern :: patterns' =>
      match search pattern text with
      | Some video_id =>
          Some ("https://www.youtube.com/watch?v=" ++ format_group video_id)
      | None => extract_url_loop patterns' text
      end
  end.

Definition extract_url (text : string) : option string :=
  if String.eqb text "" then None
  else extract_url_loop compiled_patterns text.

Fixpoint extract_video_id_loop (patterns : list pat) (url : string)
  : option string :=
  match patterns with
  | [] => None
  | pattern :: patterns' =>
      match search pattern url with
      | Some video_id => video_id
      | None => extract_video_id_loop patterns' url
      end
  end.

Definition extract_video_id (url : string) : option string :=
  extract_video_id_loop compiled_patterns url.

(** A video id: eleven characters of the set. *)
Fixpoint all_chars (k : ascii -> bool) (s : string) : bool :=
  match s with
  | EmptyString => true
  | String c s' => k c && all_chars k s'
  end.

Definition is_video_id (s : string) : bool :=
  (String.length s =? 11)%nat && all_chars is_id_char s.

(** *** Fetching a transcript *)

(** How a call of [YouTubeTranscriptApi.get_transcript] can fail. *)
Inductive api_error : Type :=
| NoTranscriptFound
| TranscriptsDisabled
| OtherError (message : string).

(** One segment of a transcript. *)
Record segment : Type :=
  { text : string; start : float; duration : float }.

(** A call of the API: the video id and the [languages] argument, [None]
    when the call leaves it out. *)
Definition api_call : Type := (string * option (list string))%type.

(** The API: what a call returns or raises. *)
Definition transcript_api : Type := api_call -> api_error + list segment.

(** [sep.join(parts)] *)
Fixpoint join (sep : string) (parts : list string) : string :=
  match parts with
  | [] => ""
  | [x] => x
  | x :: rest => x ++ sep ++ join sep rest
  end.

(** [get_transcript]: the calls made to the API, in order, and the
    transcript or [None].  [available] is [self.transcript_available]. *)
Definition get_transcript (available : bool) (fetch : transcript_api)
    (url language : string) : list api_call * option string :=
  if negb available then ([], None)
  else
    match extract_video_id url with
    | None => ([], None)
    | Some video_id =>
        if String.eqb video_id "" then ([], None)
        else
          let first := (video_id, Some [language]) in
          match fetch first with
          | inr transcript_list =>
              ([first], Some (join " " (map text transcript_list)))
          | inl NoTranscriptFound =>
              let second := (video_id, None) in
              match fetch second with
              | inr transcript_list =>
                  ([first; second],
                   Some (join " " (map text transcript_list)))
              | inl _ => ([first; second], None)
              end
          | inl _ => ([first], None)
          end
    end.

End YouTubeService.

(** ** [utils/validators.py] *)

From Stdlib Require Import NArith ZArith.

Module Validators.
Import PyStr.

(** [fastapi.HTTPException(status_code, detail)] *)
Record HTTPException : Type := { status_code : nat; detail : string }.

(** What the validators read of an [UploadFile]: its content type, which
    may be missing, and the size that seeking to its end reports. *)
Record upload : Type :=
  { filename : option string; content_type : option string; file_size : N }.

Definition MAX_FILE_SIZE : N := 10 * 1024 * 1024.

Definition ALLOWED_MIME_TYPES : list string :=
  [ "image/jpeg"; "image/jpg"; "image/png"; "image/bmp"; "image/gif";
    "application/pdf";
    "audio/mpeg"; "audio/mp3"; "audio/wav"; "audio/x-wav";
    "audio/mp4"; "audio/x-m4a"; "audio/ogg" ].

(** [x in ALLOWED_MIME_TYPES] for a content type that may be [None]. *)
Definition allowed (ct : option string) : bool :=
  match ct with
  | Some t => existsb (String.eqb t) ALLOWED_MIME_TYPES
  | None => false
  end.

(** [str] of a content type inside an f-string. *)
Definition show_content_type (ct : option string) : string :=
  match ct with
  | Some t => t
  | None => "None"
  end.

Section Rendering.

(** The text of [file_size / 1024 / 1024] under the format [.2f]: a
    floating-point rendering, taken as given. *)
Variable megabytes : N -> string.

(** [None] when the validator returns, [Some e] when it raises [e]. *)
Definition validate_file_size (file : upload) : option HTTPException :=
  let size := file_size file in
  if (MAX_FILE_SIZE <? size)%N then
    Some {| status_code := 413;
            detail := "File size (" ++ megabytes size ++
                      "MB) exceeds maximum allowed size (10MB)" |}
  else None.

End Rendering.

Definition validate_file_type (file : upload) : option HTTPException :=
  if negb (allowed (content_type file)) then
    Some {| status_code := 415;
            detail := "File type '" ++ show_content_type (content_type file) ++
                      "' is not supported. Allowed types: images, PDFs, and audio files." |}
  else None.

End Validators.

(** ** [main.py]: the endpoint [/api/process] *)

Module Backend.
Import PyStr Validators.

(** Python values that pass through the response unchanged. *)
Inductive pyval : Type :=
| PNone
| PStr (s : string)
| PBool (b : bool)
| PInt (z : Z)
| PFloat (x : float).

(** The entries of [file_info] that the endpoint reads.  The processors
    store strings under text and error. *)
Record file_info : Type :=
  { fi_text : option string;
    fi_error : option string;
    fi_type : option pyval;
    fi_confidence : option pyval;
    fi_pages : option pyval;
    fi_duration : option pyval;
    fi_language : option pyval;
    fi_youtube : option pyval }.

(** [{}] *)
Definition no_info : file_info :=
  {| fi_text := None; fi_error := None; fi_type := None;
     fi_confidence := None; fi_pages := None; fi_duration := None;
     fi_language := None; fi_youtube := None |}.

(** [file_info['youtube'] = True] *)
Definition set_youtube (fi : file_info) : file_info :=
  {| fi_text := fi_text fi; fi_error := fi_error fi; fi_type := fi_type fi;
     fi_confidence := fi_confidence fi; fi_pages := fi_pages fi;
     fi_duration := fi_duration fi; fi_language := fi_language fi;
     fi_youtube := Some (PBool true) |}.

(** [d.get(key)] and [d.get(key, default)] on an entry. *)
Definition get (entry : option pyval) : pyval :=
  match entry with Some v => v | None => PNone end.
Definition get_default (entry : option pyval) (default : pyval) : pyval :=
  match entry with Some v => v | None => default end.

Record metadata : Type :=
  { file_type : pyval; confidence : pyval; pages : pyval;
    duration : pyval; language : pyval; youtube : pyval }.

(** The dictionary the endpoint returns. *)
Record reply : Type :=
  { success : bool;
    intent : string;
    extracted_content : string;
    result : TaskExecutor.value;
    reply_metadata : metadata }.

(** What the endpoint relies on: saving the upload to a temporary file
    (which may fail), the three methods of the file processor (each
    returns a dictionary and catches its own exceptions),
    [YouTubeService.get_transcript] (which returns the transcript or
    [None]), the provider behind the executor, and the rendering of a
    size in megabytes. *)
Record collaborators : Type :=
  { save_upload : upload -> TaskExecutor.outcome string;
    process_image : string -> file_info;
    process_pdf : string -> file_info;
    process_audio : string -> file_info;
    get_transcript : string -> option string;
    provider : TaskExecutor.client;
    megabytes : N -> string }.

(** What the endpoint did, in order. *)
Inductive event : Type :=
| Save (file : upload)
| Processed (method path : string)
| TranscriptAsked (url : string)
| Sent (r : TaskExecutor.request).

(** What can be raised in the endpoint: an [HTTPException], or any other
    exception. *)
Inductive failure : Type :=
| Http (e : HTTPException)
| Other (e : TaskExecutor.exn).

Inductive ended (A : Type) : Type :=
| Done (a : A)
| Failed (f : failure).
Arguments Done {A} a.
Arguments Failed {A} f.

Definition P (A : Type) : Type := (list event * ended A)%type.

Definition pret {A : Type} (a : A) : P A := ([], Done a).
Definition pfail {A : Type} (f : failure) : P A := ([], Failed f).
Definition pbind {A B : Type} (m : P A) (k : A -> P B) : P B :=
  match m with
  | (ev, Done a) => let (ev', o) := k a in ((ev ++ ev')%list, o)
  | (ev, Failed f) => (ev, Failed f)
  end.
Definition emit (e : event) : P unit := ([e], Done tt).

Notation "x <-- m ;; k" := (pbind m (fun x => k))
  (at level 61, m at next level, right associativity).
Notation "m ;;; k" := (pbind m (fun _ => k))
  (at level 61, right associativity).

(** A validator called as a statement. *)
Definition check (v : option HTTPException) : P unit :=
  match v with
  | Some e => pfail (Http e)
  | None => pret tt
  end.

(** [x is not None], and the truth value of an upload. *)
Definition given {A : Type} (o : option A) : bool :=
  match o with Some _ => true | None => false end.

(** [s.startswith(prefix)] *)
Definition startswith (s pre : string) : bool := prefix pre s.

Section Endpoint.

Variable w : collaborators.

(** The [if file:] block: validation, the temporary file, the processor
    chosen by content type, and the content with the extracted text. *)
Definition process_file (text : string) (file : upload)
  : P (string * file_info) :=
  check (validate_file_size (megabytes w) file) ;;;
  check (validate_file_type file) ;;;
  emit (Save file) ;;;
  temp_file_path <--
    match save_upload w file with
    | TaskExecutor.Returned path => pret path
    | TaskExecutor.Raised e => pfail (Other e)
    end ;;
  file_info <--
    match content_type file with
    | None =>
        pfail (Other (TaskExecutor.Exception
                        "'NoneType' object has no attribute 'startswith'"))
    | Some ct =>
        if startswith ct "image/" then
          emit (Processed "process_image" temp_file_path) ;;;
          pret (process_image w temp_file_path)
        else if String.eqb ct "application/pdf" then
          emit (Processed "process_pdf" temp_file_path) ;;;
          pret (process_pdf w temp_file_path)
        else if startswith ct "audio/" then
          emit (Processed "process_audio" temp_file_path) ;;;
          pret (process_audio w temp_file_path)
        else
          pfail (Http {| status_code := 400;
                         detail := "Unsupported file type: " ++ ct |})
    end ;;
  match fi_error file_info with
  | Some err =>
      pfail (Http {| status_code := 500;
                     detail := "File processing error: " ++ err |})
  | None =>
      match fi_text file_info with
      | Some extracted =>
          if negb (String.eqb extracted "") then
            pret (text ++ TaskExecutor.nl ++ TaskExecutor.nl ++
                  "[Extracted Content]:" ++ TaskExecutor.nl ++ extracted,
                  file_info)
          else pret (text, file_info)
      | None => pret (text, file_info)
      end
  end.

(** The body of the [try] block. *)
Definition process_body (text : string) (file : option upload) : P reply :=
  (if String.eqb (strip text) "" && negb (given file) then
     pfail (Http {| status_code := 400;
                    detail := "Either text or file must be provided" |})
   else pret tt) ;;;
  st <--
    match file with
    | Some f => process_file text f
    | None => pret (text, no_info)
    end ;;
  let content := fst st in
  let file_info := snd st in
  let youtube_url := YouTubeService.extract_url text in
  st' <--
    match youtube_url with
    | Some url =>
        emit (TranscriptAsked url) ;;;
        match get_transcript w url with
        | Some transcript =>
            if negb (String.eqb transcript "") then
              pret (text ++ TaskExecutor.nl ++ TaskExecutor.nl ++
                    "[YouTube Transcript]:" ++ TaskExecutor.nl ++ transcript,
                    set_youtube file_info)
            else pret (content, file_info)
        | None => pret (content, file_info)
        end
    | None => pret (content, file_info)
    end ;;
  let content := fst st' in
  let file_info := snd st' in
  let intent :=
    IntentDetector.detect text
      (given file || given youtube_url) in
  result <--
    match TaskExecutor.execute intent content text (provider w) with
    | (sent, TaskExecutor.Returned d) => (map Sent sent, Done d)
    | (sent, TaskExecutor.Raised e) => (map Sent sent, Failed (Other e))
    end ;;
  answer <--
    match TaskExecutor.lookup result "result" with
    | Some v => pret v
    | None => pfail (Other (TaskExecutor.Exception "'result'"))
    end ;;
  pret {| success := true;
          intent := intent;
          extracted_content :=
            match fi_text file_info with
            | Some t => if negb (String.eqb t "") then slice_to 500 t else ""
            | None => ""
            end;
          result := answer;
          reply_metadata :=
            {| file_type := get_default (fi_type file_info) (PStr "text_only");
               confidence := get (fi_confidence file_info);
               pages := get (fi_pages file_info);
               duration := get (fi_duration file_info);
               language := get (fi_language file_info);
               youtube := get_default (fi_youtube file_info) (PBool false) |} |}.

(** [process_request]: the body, with an [HTTPException] passed on
    ([except HTTPException: raise]) and every other instance of
    [Exception] turned into status 500; what is not an instance of
    [Exception] passes both clauses.  The result is the reply, or what
    leaves the endpoint.  The [finally] block only removes the temporary
    file and catches its own exceptions; it is left out. *)
Definition process_request (text : string) (file : option upload)
  : list event * (failure + reply) :=
  match process_body text file with
  | (ev, Done r) => (ev, inr r)
  | (ev, Failed (Http e)) => (ev, inl (Http e))
  | (ev, Failed (Other e)) =>
      if TaskExecutor.is_exception e then
        (ev, inl (Http {| status_code := 500;
                          detail := "Internal server error: " ++
                                    TaskExecutor.str e |}))
      else (ev, inl (Other e))
  end.

End Endpoint.

(** To state what the endpoint does: the content and the dictionary
    after the YouTube step, the events of that step, and the file step. *)
Definition after_youtube (w : collaborators) (text content : string)
    (fi : file_info) : string * file_info :=
  match YouTubeService.extract_url text with
  | Some url =>
      match get_transcript w url with
      | Some transcript =>
          if negb (String.eqb transcript "") then
            (text ++ TaskExecutor.nl ++ TaskExecutor.nl ++
             "[YouTube Transcript]:" ++ TaskExecutor.nl ++ transcript,
             set_youtube fi)
          else (content, fi)
      | None => (content, fi)
      end
  | None => (content, fi)
  end.

Definition youtube_events (text : string) : list event :=
  match YouTubeService.extract_url text with
  | Some url => [TranscriptAsked url]
  | None => []
  end.

Definition file_step (w : collaborators) (text : string)
    (file : option upload) : P (string * file_info) :=
  match file with
  | Some f => process_file w text f
  | None => pret (text, no_info)
  end.

(** Collaborators to run the endpoint on: no disk to save uploads to,
    processors that extract nothing, the given provider and the given
    answer of the transcript service. *)
Definition sample_world (c : TaskExecutor.client) (transcript : option string)
  : collaborators :=
  {| save_upload :=
       fun _ => TaskExecutor.Raised
                  (TaskExecutor.Exception "No space left on device");
     process_image := fun _ => no_info;
     process_pdf := fun _ => no_info;
     process_audio := fun _ => no_info;
     get_transcript := fun _ => transcript;
     provider := c;
     megabytes := fun _ => "11.00" |}.

(** The method of the file processor that an event names. *)
Definition processor (w : collaborators) (method : string)
  : string -> file_info :=
  if String.eqb method "process_image" then process_image w
  else if String.eqb method "process_pdf" then process_pdf w
  else process_audio w.

(** Collaborators whose image processor reports the error [err]; the
    other two processors extract nothing. *)
Definition broken_ocr (err : string) : collaborators :=
  {| save_upload := fun _ => TaskExecutor.Returned "/tmp/tmpab12cd.png";
     process_image := fun _ =>
       {| fi_text := None; fi_error := Some err; fi_type := None;
          fi_confidence := None; fi_pages := None; fi_duration := None;
          fi_language := None; fi_youtube := None |};
     process_pdf := fun _ => no_info;
     process_audio := fun _ => no_info;
     get_transcript := fun _ => None;
     provider := TaskExecutor.answering "ok";
     megabytes := fun _ => "11.00" |}.

End Backend.

(** ** Facts about Python strings *)

Module PyStrFacts.
Import PyStr.

Section Facts.

Lemma append_nil_r (s : string) : s ++ "" = s.
Proof. induction s as [|c s IH]; simpl; [reflexivity | now rewrite IH]. Qed.

Lemma append_assoc (a b c : string) : (a ++ b) ++ c = a ++ (b ++ c).
Proof. induction a as [|x a IH]; simpl; [reflexivity | now rewrite IH]. Qed.

Lemma length_append (a b : string) :
  String.length (a ++ b) = String.length a + String.length b.
Proof. induction a as [|x a IH]; simpl; [reflexivity | now rewrite IH]. Qed.

Lemma prefix_iff (p s : string) :
  prefix p s = true <-> exists t, s = p ++ t.
Proof.
  revert s; induction p as [|c p IH]; intros [|d s]; simpl.
  - split; [intros _; now exists "" | reflexivity].
  - split; [intros _; now exists (String d s) | reflexivity].
  - split; [discriminate | intros [t Ht]; discriminate].
  - destruct (ascii_dec c d) as [->|Hne].
    + rewrite IH. split; intros [t Ht]; exists t; congruence.
    + split; [discriminate | intros [t Ht]; congruence].
Qed.

(** [sub in s] holds exactly when [s] is [pre ++ sub ++ post]. *)
Lemma str_in_iff (sub s : string) :
  str_in sub s = true <-> exists pre post, s = pre ++ sub ++ post.
Proof.
  induction s as [|c s IH]; cbn [str_in].
  - rewrite orb_false_r, prefix_iff. split.
    + intros [t Ht]. now exists "", t.
    + intros [pre [post H]]. exists post.
      destruct pre; simpl in H; [assumption | discriminate].
  - rewrite orb_true_iff, prefix_iff, IH. split.
    + intros [[t Ht] | [pre [post H]]].
      * now exists "", t.
      * exists (String c pre), post. simpl. now rewrite H.
    + intros [pre [post H]]. destruct pre as [|d pre]; simpl in H.
      * left. now exists post.
      * right. exists pre, post. congruence.
Qed.

Lemma str_in_length (sub s : string) :
  str_in sub s = true -> String.length sub <= String.length s.
Proof.
  rewrite str_in_iff. intros [pre [post ->]].
  rewrite !length_append. lia.
Qed.

Lemma length_lower (s : string) : String.length (lower s) = String.length s.
Proof. induction s as [|c s IH]; simpl; [reflexivity | now rewrite IH]. Qed.

Lemma length_lstrip (s : string) : String.length (lstrip s) <= String.length s.
Proof.
  induction s as [|c s IH]; simpl; [lia|].
  destruct (isspace c); simpl; lia.
Qed.

Lemma length_rstrip (s : string) : String.length (rstrip s) <= String.length s.
Proof.
  induction s as [|c s IH]; simpl; [lia|].
  destruct (rstrip s) as [|d r]; simpl in *; [destruct (isspace c); simpl; lia | lia].
Qed.

Lemma length_strip (s : string) : String.length (strip s) <= String.length s.
Proof.
  unfold strip. etransitivity; [apply length_rstrip | apply length_lstrip].
Qed.

(** What [lstrip] removes is a prefix and what [rstrip] removes is a
    suffix, so a stripped string occurs inside the original. *)
Lemma lstrip_suffix (s : string) : exists pre, s = pre ++ lstrip s.
Proof.
  induction s as [|c s [pre IH]]; simpl.
  - now exists "".
  - destruct (isspace c).
    + exists (String c pre). simpl. now rewrite <- IH.
    + now exists "".
Qed.

Lemma rstrip_prefix (s : string) : exists post, s = rstrip s ++ post.
Proof.
  induction s as [|c s [post IH]]; simpl.
  - now exists "".
  - destruct (rstrip s) as [|d r] eqn:E.
    + destruct (isspace c).
      * now exists (String c s).
      * exists s. simpl. reflexivity.
    + exists post. simpl. f_equal. exact IH.
Qed.

Lemma str_in_strip (sub s : string) :
  str_in sub (strip s) = true -> str_in sub s = true.
Proof.
  rewrite !str_in_iff. intros [pre [post H]].
  destruct (lstrip_suffix s) as [a Ha].
  destruct (rstrip_prefix (lstrip s)) as [b Hb].
  unfold strip in H. rewrite H in Hb. rewrite Hb in Ha.
  exists (a ++ pre), (post ++ b). rewrite Ha.
  now rewrite !append_assoc.
Qed.

(** A word that starts with a non-space character survives [lstrip]. *)
Lemma lstrip_keeps (pre w post : string) (c : ascii) :
  first_char w = Some c -> isspace c = false ->
  exists pre', lstrip (pre ++ w ++ post) = pre' ++ w ++ post.
Proof.
  intros Hc Hs. induction pre as [|a pre IH]; simpl.
  - exists "". destruct w as [|d w]; [discriminate|].
    simpl in *. injection Hc as ->. now rewrite Hs.
  - destruct (isspace a); [exact IH | now exists (String a pre)].
Qed.

Lemma rstrip_app (a b : string) :
  rstrip b <> "" -> rstrip (a ++ b) = a ++ rstrip b.
Proof.
  intros Hb. induction a as [|x a IH]; simpl; [reflexivity|].
  rewrite IH. destruct (a ++ rstrip b) as [|y r] eqn:E; [|reflexivity].
  destruct a; simpl in E; [contradiction | discriminate].
Qed.

Lemma last_char_split (w : string) (c : ascii) :
  last_char w = Some c -> exists w0, w = w0 ++ String c "".
Proof.
  induction w as [|d w IH]; simpl; [discriminate|].
  destruct w as [|e w].
  - intros [= ->]. now exists "".
  - intros H. destruct (IH H) as [w0 Hw0]. exists (String d w0).
    simpl. now rewrite <- Hw0.
Qed.

(** A word that ends with a non-space character survives [rstrip]. *)
Lemma rstrip_keeps (pre w post : string) (c : ascii) :
  last_char w = Some c -> isspace c = false ->
  rstrip (pre ++ w ++ post) = pre ++ w ++ rstrip post.
Proof.
  intros Hc Hs. destruct (last_char_split w c Hc) as [w0 ->].
  assert (E : rstrip (String c post) = String c (rstrip post)).
  { simpl. destruct (rstrip post); [now rewrite Hs | reflexivity]. }
  rewrite !append_assoc. simpl.
  rewrite <- append_assoc, rstrip_app by (rewrite E; discriminate).
  now rewrite E, append_assoc.
Qed.

(** Stripping never removes an occurrence of a solid word. *)
Lemma str_in_strip_solid (w s : string) :
  solid w = true -> str_in w s = true -> str_in w (strip s) = true.
Proof.
  unfold solid. intros Hw.
  destruct (first_char w) as [a|] eqn:Ha; [|discriminate].
  destruct (last_char w) as [b|] eqn:Hb; [|discriminate].
  apply andb_true_iff in Hw as [Hsa Hsb].
  apply negb_true_iff in Hsa, Hsb.
  rewrite !str_in_iff. intros [pre [post ->]].
  destruct (lstrip_keeps pre w post a Ha Hsa) as [pre' E].
  unfold strip. rewrite E, (rstrip_keeps pre' w post b Hb Hsb).
  now exists pre', (rstrip post).
Qed.

Lemma any_true_iff {A : Type} (p : A -> bool) (xs : list A) :
  any p xs = true <-> exists x, In x xs /\ p x = true.
Proof. apply existsb_exists. Qed.

Lemma any_false_iff {A : Type} (p : A -> bool) (xs : list A) :
  any p xs = false <-> forall x, In x xs -> p x = false.
Proof.
  unfold any. induction xs as [|x xs IH]; simpl.
  - split; [intros _ y [] | reflexivity].
  - rewrite orb_false_iff, IH. split.
    + intros [Hx Hxs] y [<-|Hy]; auto.
    + intros H. split; [apply H; now left | intros y Hy; apply H; now right].
Qed.

Lemma sum_ones_filter {A : Type} (p : A -> bool) (xs : list A) :
  sum_ones p xs = List.length (filter p xs).
Proof.
  induction xs as [|x xs IH]; simpl; [reflexivity|].
  destruct (p x); simpl; now rewrite IH.
Qed.

End Facts.

End PyStrFacts.

(** ** The matcher finds exactly the words of a pattern *)

Module ReFacts.
Import PyStr PyStrFacts Re.

Lemma append_empty (a b : string) : a ++ b = "" -> a = "" /\ b = "".
Proof. destruct a; simpl; [auto | discriminate]. Qed.

Lemma matches_Eps_inv (s : string) : matches Eps s -> s = "".
Proof. intros H. now inversion H. Qed.

Lemma matches_Set_inv (k : cset) (s : string) :
  matches (Set_ k) s -> exists c, s = String c "" /\ cset_mem k c = true.
Proof. intros H. inversion H; subst. now exists c. Qed.

Lemma matches_Cat_inv (r1 r2 : regex) (s : string) :
  matches (Cat r1 r2) s ->
  exists s1 s2, s = s1 ++ s2 /\ matches r1 s1 /\ matches r2 s2.
Proof. intros H. inversion H; subst. now exists s1, s2. Qed.

Lemma matches_Alt_inv (r1 r2 : regex) (s : string) :
  matches (Alt r1 r2) s -> matches r1 s \/ matches r2 s.
Proof. intros H. inversion H; subst; [now left | now right]. Qed.

Lemma matches_Star_inv (r : regex) (s : string) :
  matches (Star r) s ->
  s = "" \/
  exists c s1 s2, s = String c s1 ++ s2 /\
                  matches r (String c s1) /\ matches (Star r) s2.
Proof. intros H. inversion H; subst; [now left | right; now exists c, s1, s2]. Qed.

Lemma nullable_iff (r : regex) : nullable r = true <-> matches r "".
Proof.
  induction r as [| |k|r1 IH1 r2 IH2|r1 IH1 r2 IH2|r IH]; simpl.
  - split; [discriminate | intros H; inversion H].
  - split; [intros _; constructor | reflexivity].
  - split; [discriminate|].
    intros H. apply matches_Set_inv in H as [c [E _]]. discriminate.
  - rewrite andb_true_iff, IH1, IH2. split.
    + intros [H1 H2]. change "" with ("" ++ ""). now constructor.
    + intros H. apply matches_Cat_inv in H as [s1 [s2 [E [H1 H2]]]].
      symmetry in E. apply append_empty in E as [-> ->]. now split.
  - rewrite orb_true_iff, IH1, IH2. split.
    + intros [H|H]; [now apply MAltL | now apply MAltR].
    + apply matches_Alt_inv.
  - split; [intros _; constructor | reflexivity].
Qed.

Lemma deriv_iff (a : ascii) (r : regex) (s : string) :
  matches (deriv a r) s <-> matches r (String a s).
Proof.
  revert s.
  induction r as [| |k|r1 IH1 r2 IH2|r1 IH1 r2 IH2|r IH]; intros s; simpl.
  - split; intros H; inversion H.
  - split; intros H; inversion H.
  - destruct (cset_mem k a) eqn:E; split; intros H.
    + apply matches_Eps_inv in H as ->. now constructor.
    + apply matches_Set_inv in H as [c [[= <- ->] _]]. constructor.
    + inversion H.
    + apply matches_Set_inv in H as [c [[= <- ->] Hc]]. congruence.
  - assert (Hcat : matches (Cat (deriv a r1) r2) s ->
                   matches (Cat r1 r2) (String a s)).
    { intros H. apply matches_Cat_inv in H as [s1 [s2 [-> [H1 H2]]]].
      apply IH1 in H1. change (String a (s1 ++ s2)) with (String a s1 ++ s2).
      now constructor. }
    assert (Hback : matches (Cat r1 r2) (String a s) ->
                    matches (Cat (deriv a r1) r2) s \/
                    (nullable r1 = true /\ matches (deriv a r2) s)).
    { intros H. apply matches_Cat_inv in H as [s1 [s2 [E [H1 H2]]]].
      destruct s1 as [|b s1]; simpl in E.
      - subst s2. right. split; [now apply nullable_iff | now apply IH2].
      - injection E as <- ->. left. constructor; [now apply IH1 | assumption]. }
    destruct (nullable r1) eqn:N.
    + split.
      * intros H. apply matches_Alt_inv in H as [H|H]; [now apply Hcat|].
        change (String a s) with ("" ++ String a s).
        constructor; [now apply nullable_iff | now apply IH2].
      * intros H. destruct (Hback H) as [H'|[_ H']];
          [now apply MAltL | now apply MAltR].
    + split; [exact Hcat|].
      intros H. destruct (Hback H) as [H'|[N' _]]; [assumption | discriminate].
  - split; intros H; apply matches_Alt_inv in H as [H|H].
    + apply MAltL. now apply IH1.
    + apply MAltR. now apply IH2.
    + apply MAltL. now apply IH1.
    + apply MAltR. now apply IH2.
  - split.
    + intros H. apply matches_Cat_inv in H as [s1 [s2 [-> [H1 H2]]]].
      apply IH in H1. change (String a (s1 ++ s2)) with (String a s1 ++ s2).
      now constructor.
    + intros H. apply matches_Star_inv in H as [E|[c [s1 [s2 [E [H1 H2]]]]]];
        [discriminate|].
      simpl in E. injection E as <- ->.
      constructor; [now apply IH | assumption].
Qed.

(** [match_ r s] holds exactly when a prefix of [s] is a word of [r]. *)
Lemma match_iff (r : regex) (s : string) :
  match_ r s = true <-> exists p t, s = p ++ t /\ matches r p.
Proof.
  revert r. induction s as [|c s IH]; intros r; cbn [match_].
  - rewrite orb_false_r, nullable_iff. split.
    + intros H. now exists "", "".
    + intros [p [t [E H]]]. symmetry in E.
      apply append_empty in E as [-> _]. exact H.
  - rewrite orb_true_iff, nullable_iff, IH. split.
    + intros [H|[p [t [E H]]]].
      * now exists "", (String c s).
      * exists (String c p), t. split; [simpl; now rewrite E | now apply deriv_iff].
    + intros [p [t [E H]]]. destruct p as [|d p]; simpl in E.
      * now left.
      * injection E as <- ->. right. exists p, t.
        split; [reflexivity | now apply deriv_iff].
Qed.

(** [search r s] holds exactly when a word of [r] occurs in [s]. *)
Lemma search_iff (r : regex) (s : string) :
  search r s = true <-> exists a p b, s = a ++ p ++ b /\ matches r p.
Proof.
  induction s as [|c s IH]; cbn [search].
  - rewrite orb_false_r, match_iff. split.
    + intros [p [t [E H]]]. now exists "", p, t.
    + intros [a [p [b [E H]]]]. destruct a; simpl in E; [|discriminate].
      now exists p, b.
  - rewrite orb_true_iff, match_iff, IH. split.
    + intros [[p [t [E H]]]|[a [p [b [E H]]]]].
      * now exists "", p, t.
      * exists (String c a), p, b. split; [simpl; now rewrite E | assumption].
    + intros [a [p [b [E H]]]]. destruct a as [|d a]; simpl in E.
      * left. now exists p, b.
      * injection E as <- ->. right. now exists a, p, b.
Qed.

Lemma matches_Lit (w : string) : matches (Lit w) w.
Proof.
  induction w as [|c w IH]; simpl; [constructor|].
  change (String c w) with (String c "" ++ w).
  constructor; [|assumption]. constructor. simpl. apply Ascii.eqb_refl.
Qed.

End ReFacts.

(** ** Properties of the intent detector *)

Module IntentDetectorSpec.
Import PyStr Re PyStrFacts IntentDetector.

#[local] Set Warnings "-inexact-float".

(** *** The cases of the test suite *)

Example detect_summarize :
  detect "Please summarize this document" false = "summarization".
Proof. vm_compute. reflexivity. Qed.

Example detect_code :
  detect "def foo():
  pass
Explain what this does" false = "code_explanation".
Proof. vm_compute. reflexivity. Qed.

Example detect_actions :
  detect "Extract all action items from this meeting" false = "action_items".
Proof. vm_compute. reflexivity. Qed.

Example detect_sentiment :
  detect "What is the sentiment of this review?" false = "sentiment_analysis".
Proof. vm_compute. reflexivity. Qed.

Example detect_youtube :
  detect "Summarize this video: https://www.youtube.com/watch?v=dQw4w9WgXcQ"
         false = "youtube_transcript".
Proof. vm_compute. reflexivity. Qed.

Example detect_conversational :
  detect "Hello, how are you?" false = "conversational".
Proof. vm_compute. reflexivity. Qed.

Example detect_debug : detect "please debug my script" false = "code_explanation".
Proof. vm_compute. reflexivity. Qed.

Example contains_code_samples :
  map _contains_code
      ["def foo():"; "function  go ("; "class A"; "import os.path";
       "from a.b import c"; "const x = 1"; "let y=2"; "var z =3";
       "public static"; "private int"; "```x```"; "``````";
       "define x"; "classy"; "import"; "let x"; "``` x ``"; "debug"; ""]
  = [true; true; true; true; true; true; true; true; true; true; true; true;
     false; false; false; false; false; false; false].
Proof. vm_compute. reflexivity. Qed.

(** *** How [detect] unfolds *)

Lemma not_text_identity (text : string) :
  (if String.eqb text "" then "" else text) = text.
Proof. destruct (String.eqb_spec text ""); congruence. Qed.

(** The keyword loop visits the four intents other than
    [youtube_transcript], in the order of the table. *)
Lemma scan_intents_unfold (t : string) :
  scan_intents INTENT_KEYWORDS t =
    if _contains_keywords t "summarization" then Some "summarization"
    else if _contains_keywords t "sentiment_analysis" then Some "sentiment_analysis"
    else if _contains_keywords t "code_explanation" then Some "code_explanation"
    else if _contains_keywords t "action_items" then Some "action_items"
    else None.
Proof. reflexivity. Qed.

Lemma detect_unfold (text : string) (has_file : bool) :
  detect text has_file =
    let t := strip (lower text) in
    let after_code :=
      match scan_intents INTENT_KEYWORDS t with
      | Some intent => intent
      | None =>
          if has_file && negb (_has_clear_instruction t)
          then "needs_clarification" else "conversational"
      end in
    if _contains_keywords t "youtube_transcript" then "youtube_transcript"
    else if _contains_code text && _contains_explanation_request t
         then "code_explanation"
         else after_code.
Proof.
  unfold detect. rewrite not_text_identity. cbv zeta.
  destruct (_contains_keywords _ "youtube_transcript"); [reflexivity|].
  destruct (_contains_code text); [|reflexivity].
  destruct (_contains_explanation_request _); reflexivity.
Qed.

Lemma contains_keywords_strip (s intent : string) :
  _contains_keywords (strip s) intent = true ->
  _contains_keywords s intent = true.
Proof.
  unfold _contains_keywords. cbv zeta. rewrite !any_true_iff.
  intros [kw [Hin Hkw]]. exists kw. split; [assumption|].
  now apply str_in_strip.
Qed.

Lemma contains_keywords_strip_false (s intent : string) :
  _contains_keywords s intent = false ->
  _contains_keywords (strip s) intent = false.
Proof.
  intros H. destruct (_contains_keywords (strip s) intent) eqn:E; [|reflexivity].
  apply contains_keywords_strip in E. congruence.
Qed.

(** Every YouTube keyword starts and ends with a non-space character. *)
Lemma youtube_keywords_solid (kw : string) :
  In kw (dict_get INTENT_KEYWORDS "youtube_transcript" []) -> solid kw = true.
Proof.
  cbn. intros [<-|[<-|[<-|[<-|[]]]]]; reflexivity.
Qed.

(** *** The claims *)

(** C1: a non-empty text whose lowercased form contains one of the
    keywords youtube.com, youtu.be, youtube or video transcript is
    classified as youtube_transcript, whatever the attachment flag and
    whatever else the text matches. *)
Theorem detect_youtube_priority (text : string) (has_file : bool) (kw : string) :
  text <> "" ->
  In kw ["youtube.com"; "youtu.be"; "youtube"; "video transcript"] ->
  str_in kw (lower text) = true ->
  detect text has_file = "youtube_transcript".
Proof.
  intros _ Hin Hkw. rewrite detect_unfold. cbv zeta.
  assert (E : _contains_keywords (strip (lower text)) "youtube_transcript" = true).
  { unfold _contains_keywords. cbv zeta. apply any_true_iff.
    exists kw. split; [exact Hin|].
    apply str_in_strip_solid; [|exact Hkw].
    now apply youtube_keywords_solid. }
  now rewrite E.
Qed.

Lemma detect_youtube_priority_witness :
  detect "Summarize https://YouTu.be/abc and debug it
def f(x): explain" true = "youtube_transcript".
Proof.
  apply (detect_youtube_priority _ true "youtu.be").
  - discriminate.
  - simpl. tauto.
  - vm_compute. reflexivity.
Defined.

(** C3: the empty text is classified as needs_clarification with an
    attachment and as conversational without one. *)
Theorem detect_empty_text :
  detect "" true = "needs_clarification" /\ detect "" false = "conversational".
Proof. split; vm_compute; reflexivity. Qed.

(** C2, as claimed: code_explanation is returned only through the
    code-pattern-and-explanation-phrase branch.  It fails: a text with the
    keyword debug and no code in it is classified as code_explanation by
    the keyword loop. *)
Lemma detect_code_explanation_by_keyword :
  ~ (forall text has_file,
        detect text has_file = "code_explanation" ->
        _contains_code text = true /\
        _contains_explanation_request (strip (lower text)) = true).
Proof.
  intros H. destruct (H "please debug my script" false) as [Hcode _].
  - vm_compute. reflexivity.
  - vm_compute in Hcode. discriminate.
Qed.

(** C2, amended: the keyword loop consults the keyword sets of
    summarization, sentiment_analysis, code_explanation and action_items,
    in that order, and skips only youtube_transcript; so the detector
    returns code_explanation exactly when the stripped lowercased text has
    no YouTube keyword and either the code-pattern-and-explanation-phrase
    branch fires, or no summarization or sentiment keyword occurs in it
    and a code_explanation keyword does. *)
Theorem detect_code_explanation_iff (text : string) (has_file : bool) :
  let t := strip (lower text) in
  (scan_intents INTENT_KEYWORDS t =
     if _contains_keywords t "summarization" then Some "summarization"
     else if _contains_keywords t "sentiment_analysis" then Some "sentiment_analysis"
     else if _contains_keywords t "code_explanation" then Some "code_explanation"
     else if _contains_keywords t "action_items" then Some "action_items"
     else None) /\
  (detect text has_file = "code_explanation" <->
   _contains_keywords t "youtube_transcript" = false /\
   ((_contains_code text = true /\ _contains_explanation_request t = true) \/
    (_contains_keywords t "summarization" = false /\
     _contains_keywords t "sentiment_analysis" = false /\
     _contains_keywords t "code_explanation" = true))).
Proof.
  intros t. split; [apply scan_intents_unfold|].
  rewrite detect_unfold. fold t. cbv zeta. rewrite scan_intents_unfold.
  destruct (_contains_keywords t "youtube_transcript");
    [split; [discriminate | intros [? _]; discriminate]|].
  destruct (_contains_code text), (_contains_explanation_request t); cbn [andb];
    try (split; [intros _; split; [reflexivity | left; split; reflexivity]
                | reflexivity]).
  all: destruct (_contains_keywords t "summarization");
       destruct (_contains_keywords t "sentiment_analysis");
       destruct (_contains_keywords t "code_explanation");
       destruct (_contains_keywords t "action_items");
       destruct (has_file && negb (_has_clear_instruction t));
       split; try discriminate; try (intros _; split; [reflexivity|right; auto]);
       try reflexivity;
       intros [_ [[? ?]|[? [? ?]]]]; discriminate.
Qed.

(** C4: the confidence is 0.0 for needs_clarification; otherwise it is
    0.95, 0.75 or 0.5 as two or more, exactly one or none of the keywords
    of the detected intent occur in the lowercased text; it always lies
    between 0 and 1. *)
Theorem get_confidence_correct (text : string) (has_file : bool) :
  get_confidence text has_file = confidence_spec text has_file /\
  in_unit_interval (get_confidence text has_file).
Proof.
  unfold get_confidence, confidence_spec, matching_keywords, own_keywords,
    in_unit_interval.
  cbv zeta. rewrite sum_ones_filter.
  destruct (String.eqb (detect text has_file) "needs_clarification").
  - repeat split; reflexivity.
  - destruct (List.length _) as [|[|n]]; repeat split; reflexivity.
Qed.

Example confidence_two_keywords :
  get_confidence "Please summarize: give me a summary" false = 0.95%float.
Proof. vm_compute. reflexivity. Qed.

(** No explanation phrase fits in fewer than six characters. *)
Lemma explanation_request_short (t : string) :
  String.length t < 6 -> _contains_explanation_request t = false.
Proof.
  intros Hlen. unfold _contains_explanation_request. apply any_false_iff.
  intros w Hw. destruct (str_in w t) eqn:E; [|reflexivity].
  apply str_in_length in E.
  cbn in Hw.
  repeat (destruct Hw as [<-|Hw]; [cbn in E; lia|]). destruct Hw.
Qed.

Lemma has_clear_instruction_short (t : string) :
  String.length t < 5 -> _has_clear_instruction t = false.
Proof.
  intros Hlen. unfold _has_clear_instruction.
  apply Nat.ltb_lt in Hlen. rewrite Hlen, orb_true_r. reflexivity.
Qed.

Lemma matches_some_keyword_unfold (t : string) :
  matches_some_keyword t =
    _contains_keywords t "summarization" ||
    (_contains_keywords t "sentiment_analysis" ||
     (_contains_keywords t "code_explanation" ||
      (_contains_keywords t "action_items" ||
       (_contains_keywords t "youtube_transcript" || false)))).
Proof. reflexivity. Qed.

(** C9: a text shorter than five characters whose lowercased form matches
    no intent keyword is classified as needs_clarification when a file is
    attached, also when it is one of the action verbs: the length test of
    [_has_clear_instruction] comes before the verbs are looked at. *)
Theorem detect_short_text_with_file (text : string) :
  String.length text < 5 ->
  matches_some_keyword (lower text) = false ->
  detect text true = "needs_clarification" /\
  _has_clear_instruction (strip (lower text)) = false.
Proof.
  intros Hlen Hkw.
  assert (Ht : String.length (strip (lower text)) < 5).
  { pose proof (length_strip (lower text)). rewrite length_lower in *. lia. }
  rewrite matches_some_keyword_unfold in Hkw.
  repeat (apply orb_false_iff in Hkw; destruct Hkw as [? Hkw]).
  rewrite detect_unfold. cbv zeta. rewrite scan_intents_unfold.
  rewrite !contains_keywords_strip_false by assumption.
  rewrite explanation_request_short by lia.
  rewrite has_clear_instruction_short by assumption.
  rewrite andb_false_r. split; reflexivity.
Qed.

Lemma detect_short_text_with_file_witness :
  In "find" action_verbs /\
  detect "find" true = "needs_clarification" /\
  _has_clear_instruction (strip (lower "find")) = false.
Proof.
  split; [simpl; tauto|].
  apply (detect_short_text_with_file "find").
  - simpl. lia.
  - vm_compute. reflexivity.
Defined.

End IntentDetectorSpec.

(** ** Properties of the task executor *)

Module TaskExecutorSpec.
Import PyStr PyStrFacts TaskExecutor.

(** *** Running a handler *)

Lemma ask_run (ceiling : nat) (prompt label : string) (c : client) :
  ask ceiling prompt label c =
    ([prompt_request ceiling prompt],
     match c (prompt_request ceiling prompt) with
     | Raised e => Raised e
     | Returned r =>
         match resp_content r with
         | [] => Raised (Exception "list index out of range")
         | TextBlock t :: _ =>
             Returned [ ("task", Str label); ("result", Str t) ]
         | OtherBlock cls :: _ =>
             Raised (Exception ("'" ++ cls ++ "' object has no attribute 'text'"))
         end
     end).
Proof.
  unfold ask, bind, messages_create, prompt_request. cbv zeta.
  destruct (c _) as [r|e]; [|reflexivity].
  unfold first_text. destruct (resp_content r) as [|[t|cls] bs]; reflexivity.
Qed.

Lemma ask_sent (ceiling : nat) (prompt label : string) (c : client) :
  fst (ask ceiling prompt label c) = [prompt_request ceiling prompt].
Proof. now rewrite ask_run. Qed.

Lemma ask_returned (ceiling : nat) (prompt label : string) (c : client)
    (d : pydict) :
  snd (ask ceiling prompt label c) = Returned d ->
  exists text, d = [ ("task", Str label); ("result", Str text) ].
Proof.
  rewrite ask_run. cbn [snd].
  destruct (c _) as [r|e]; [|discriminate].
  destruct (resp_content r) as [|[t|cls] bs]; try discriminate.
  intros [= <-]. now exists t.
Qed.

Lemma handle_youtube_unfold (content query : string) :
  _handle_youtube content query =
    if str_in youtube_marker content then
      if asks_sentiment query && negb (asks_summary query)
      then ask 500 (sentiment_template ++ content ++ nl) "sentiment_analysis"
      else ask 1500 (summary_template ++ content ++ nl) "summarization"
    else ask 500 (youtube_fallback_prompt query) "youtube_transcript".
Proof.
  unfold _handle_youtube, asks_sentiment, asks_summary.
  destruct (str_in youtube_marker content); [|reflexivity].
  destruct (any _ ["summarize"; "summary"; "tldr"]); cbn [negb andb].
  - now rewrite andb_false_r.
  - rewrite andb_true_r. destruct (any _ ["sentiment"; "tone"]); reflexivity.
Qed.

Lemma handlers_get_unknown (task_type : string) (default : handler) :
  ~ In task_type (map fst handlers) ->
  handlers_get handlers task_type default = default.
Proof.
  generalize handlers as hs.
  induction hs as [|[k h] hs IH]; intros Hnot; cbn [handlers_get]; [reflexivity|].
  destruct (String.eqb_spec k task_type) as [->|Hne].
  - exfalso. apply Hnot. now left.
  - apply IH. intros Hin. apply Hnot. now right.
Qed.

Lemma execute_run (task_type content query : string) (c : client) :
  execute task_type content query c =
    match handlers_get handlers task_type _handle_conversational content query c with
    | (sent, Returned d) => (sent, Returned d)
    | (sent, Raised e) =>
        if is_exception e then (sent, Returned (error_result task_type e))
        else (sent, Raised e)
    end.
Proof.
  unfold execute, try_except. cbv zeta.
  destruct (handlers_get _ _ _ _ _ c) as [sent [d|e]]; [reflexivity|].
  destruct (is_exception e); [|reflexivity].
  unfold ret, error_result. now rewrite app_nil_r.
Qed.

(** *** The claims *)

(** C5, as claimed: whatever exception the selected handler raises,
    execute returns a dictionary and the exception does not leave it.  It
    fails: the clause of execute names Exception, so an exception that is
    not an instance of it (a cancellation, a keyboard interrupt, an exit)
    raised in the handler leaves execute. *)
Lemma execute_lets_base_exception_through :
  ~ (forall (c : client) (task_type content query : string)
            (sent : list request) (e : exn),
        handlers_get handlers task_type _handle_conversational content query c
          = (sent, Raised e) ->
        exists d, execute task_type content query c = (sent, Returned d)).
Proof.
  intros H.
  destruct (H (interrupted "KeyboardInterrupt") "summarization" "some text" ""
              [prompt_request 1500 (summary_template ++ "some text" ++ nl)]
              (BaseException "KeyboardInterrupt") eq_refl) as [d Hd].
  vm_compute in Hd. discriminate.
Qed.

(** C5, amended: when the selected handler raises an exception that is
    an instance of Exception, execute returns the dictionary with the
    requested task type as its task, the message of the exception after
    the words Error executing task as its result, and error set to True;
    an exception leaves execute only if it is not an instance of
    Exception. *)
Theorem execute_catches (c : client) (task_type content query : string)
    (sent : list request) (e : exn) :
  handlers_get handlers task_type _handle_conversational content query c
    = (sent, Raised e) ->
  is_exception e = true ->
  execute task_type content query c =
    (sent, Returned [ ("task", Str task_type);
                      ("result", Str ("Error executing task: " ++ str e));
                      ("error", Bool true) ]) /\
  (forall task_type' content' query' c',
      match snd (execute task_type' content' query' c') with
      | Returned _ => True
      | Raised e' => is_exception e' = false
      end).
Proof.
  intros H He. split.
  - rewrite execute_run, H, He. reflexivity.
  - intros t' c0 q' c'. rewrite execute_run.
    destruct (handlers_get _ _ _ _ _ c') as [sent' [d|e0]]; cbn [snd]; [exact I|].
    destruct (is_exception e0) eqn:E0; cbn [snd]; [exact I | exact E0].
Qed.

Lemma execute_catches_witness :
  execute "summarization" "some text" "" (failing "Connection error.") =
    ([prompt_request 1500 (summary_template ++ "some text" ++ nl)],
     Returned [ ("task", Str "summarization");
                ("result", Str "Error executing task: Connection error.");
                ("error", Bool true) ]).
Proof.
  apply (execute_catches (failing "Connection error.") "summarization"
           "some text" "" _ (Exception "Connection error."));
    reflexivity.
Defined.

(** C6: a task type that is none of the seven names is served by the
    conversational handler: the same request is sent as for a
    conversational task, and an answer of the provider comes back as the
    conversational result, with no error entry. *)
Theorem execute_unknown_task_type (c : client) (task_type content query : string) :
  ~ In task_type
       ["summarization"; "sentiment_analysis"; "code_explanation";
        "action_items"; "needs_clarification"; "conversational";
        "youtube_transcript"] ->
  handlers_get handlers task_type _handle_conversational
    = _handle_conversational /\
  fst (execute task_type content query c)
    = [prompt_request 1000 (conversational_prompt content query)] /\
  fst (execute task_type content query c)
    = fst (execute "conversational" content query c) /\
  (forall d,
      snd (_handle_conversational content query c) = Returned d ->
      execute task_type content query c
        = execute "conversational" content query c /\
      snd (execute task_type content query c) = Returned d /\
      lookup d "task" = Some (Str "conversational") /\
      lookup d "error" = None).
Proof.
  intros Hnot.
  assert (E : handlers_get handlers task_type _handle_conversational
              = _handle_conversational)
    by (apply handlers_get_unknown; exact Hnot).
  assert (S : forall t,
             handlers_get handlers t _handle_conversational = _handle_conversational ->
             fst (execute t content query c)
               = [prompt_request 1000 (conversational_prompt content query)]).
  { intros t Et. rewrite execute_run, Et.
    change (_handle_conversational content query)
      with (ask 1000 (conversational_prompt content query) "conversational").
    rewrite ask_run. destruct (c _) as [r|e]; [|now destruct (is_exception e)].
    destruct (resp_content r) as [|[t0|cls] bs]; reflexivity. }
  split; [exact E|]. split; [apply S; exact E|].
  split; [rewrite !S by (exact E || reflexivity); reflexivity|].
  intros d Hd. rewrite !execute_run, E.
  change (handlers_get handlers "conversational" _handle_conversational)
    with _handle_conversational.
  split; [|split].
  - destruct (_handle_conversational content query c) as [sent [d0|e]];
      [reflexivity | discriminate].
  - destruct (_handle_conversational content query c) as [sent [d0|e]];
      [exact Hd | discriminate].
  - change (_handle_conversational content query)
      with (ask 1000 (conversational_prompt content query) "conversational") in Hd.
    destruct (ask_returned _ _ _ _ _ Hd) as [text ->]. split; reflexivity.
Qed.

Lemma execute_unknown_task_type_witness :
  execute "translate" "Bonjour" "Bonjour" (answering "Hello!") =
    ([prompt_request 1000 (conversational_prompt "Bonjour" "Bonjour")],
     Returned [ ("task", Str "conversational"); ("result", Str "Hello!") ]).
Proof.
  assert (Hnot : ~ In "translate"
       ["summarization"; "sentiment_analysis"; "code_explanation";
        "action_items"; "needs_clarification"; "conversational";
        "youtube_transcript"]).
  { simpl. intros H. repeat (destruct H as [H|H]; [discriminate|]). exact H. }
  destruct (execute_unknown_task_type (answering "Hello!") "translate"
              "Bonjour" "Bonjour" Hnot) as [_ [_ [_ H]]].
  destruct (H [ ("task", Str "conversational"); ("result", Str "Hello!") ]
              eq_refl) as [-> _].
  reflexivity.
Defined.

(** C7, as claimed: with the marker in the content, a query that holds
    sentiment or tone goes to the sentiment handler.  It fails: a query
    that also holds summarize goes to the summary handler. *)
Lemma handle_youtube_summary_word_first :
  ~ (forall (c : client) (content query : string),
        str_in youtube_marker content = true ->
        any (fun word => str_in word query) ["sentiment"; "tone"] = true ->
        _handle_youtube content query c = _handle_sentiment content query c).
Proof.
  intros H.
  specialize (H (answering "ok") "[YouTube Transcript]: hello"
                "summarize the tone" eq_refl eq_refl).
  vm_compute in H. discriminate.
Qed.

(** C7, amended: with the marker [YouTube Transcript]: in the content,
    the handler hands over to the sentiment handler when the lowercased
    query holds sentiment or tone and none of summarize, summary, tldr,
    and to the summary handler otherwise; without the marker it sends the
    limitation prompt with a ceiling of 500 tokens and labels the answer
    youtube_transcript. *)
Theorem handle_youtube_dispatch (c : client) (content query : string) :
  _handle_youtube content query =
    (if str_in youtube_marker content then
       if asks_sentiment query && negb (asks_summary query)
       then _handle_sentiment content query
       else _handle_summary content query
     else ask 500 (youtube_fallback_prompt query) "youtube_transcript") /\
  fst (ask 500 (youtube_fallback_prompt query) "youtube_transcript" c)
    = [ {| model := self_model; max_tokens := 500;
           messages := [ {| role := "user";
                            msg_content := youtube_template ++ query ++ nl |} ] |} ] /\
  (forall d,
      str_in youtube_marker content = false ->
      snd (_handle_youtube content query c) = Returned d ->
      lookup d "task" = Some (Str "youtube_transcript")).
Proof.
  split; [apply handle_youtube_unfold|]. split; [apply ask_sent|].
  intros d Hm. rewrite handle_youtube_unfold, Hm. intros Hd.
  destruct (ask_returned _ _ _ _ _ Hd) as [text ->]. reflexivity.
Qed.

Lemma handle_youtube_dispatch_witness :
  lookup [ ("task", Str "youtube_transcript"); ("result", Str "Sorry.") ] "task"
    = Some (Str "youtube_transcript").
Proof.
  destruct (handle_youtube_dispatch (answering "Sorry.")
              "https://youtu.be/abc" "https://youtu.be/abc") as [_ [_ H]].
  apply H; reflexivity.
Defined.

Lemma slice_to_idem (n : nat) (s : string) :
  slice_to n (slice_to n s) = slice_to n s.
Proof.
  revert s; induction n as [|n IH]; intros [|a s]; simpl; try reflexivity.
  now rewrite IH.
Qed.

Lemma slice_to_length (n : nat) (s : string) :
  String.length (slice_to n s) = Nat.min n (String.length s).
Proof.
  revert s; induction n as [|n IH]; intros [|a s]; simpl; try reflexivity.
  now rewrite IH.
Qed.

(** C8: the clarification handler sends one request, with a ceiling of
    300 tokens, whose prompt is the template followed by the query and the
    first 200 characters of the content; nothing of the content beyond
    them reaches the handler; an answer is labelled clarification, which
    is not the intent name needs_clarification. *)
Theorem handle_clarification_request (c : client) (content query : string) :
  handlers_get handlers "needs_clarification" _handle_conversational
    = _handle_clarification /\
  fst (_handle_clarification content query c)
    = [ {| model := self_model; max_tokens := 300;
           messages :=
             [ {| role := "user";
                  msg_content :=
                    clarification_template ++ query ++ nl ++
                    "Content provided: " ++ slice_to 200 content ++
                    "..." ++ nl |} ] |} ] /\
  String.length (slice_to 200 content) = Nat.min 200 (String.length content) /\
  _handle_clarification content query
    = _handle_clarification (slice_to 200 content) query /\
  (forall d,
      snd (execute "needs_clarification" content query c) = Returned d ->
      lookup d "error" = None ->
      lookup d "task" = Some (Str "clarification")) /\
  "clarification" <> "needs_clarification".
Proof.
  split; [reflexivity|].
  change (_handle_clarification content query)
    with (ask 300 (clarification_prompt content query) "clarification").
  split; [apply ask_sent|]. split; [apply slice_to_length|].
  split.
  - change (_handle_clarification (slice_to 200 content) query)
      with (ask 300 (clarification_prompt (slice_to 200 content) query)
                "clarification").
    unfold clarification_prompt. now rewrite slice_to_idem.
  - split; [|discriminate].
    intros d. rewrite execute_run.
    change (handlers_get handlers "needs_clarification" _handle_conversational
              content query)
      with (ask 300 (clarification_prompt content query) "clarification").
    destruct (ask _ _ _ c) as [sent [d0|e]] eqn:E; cbn [snd].
    + intros [= ->] _.
      assert (Hd : snd (ask 300 (clarification_prompt content query)
                            "clarification" c) = Returned d)
        by now rewrite E.
      destruct (ask_returned _ _ _ _ _ Hd) as [text ->]. reflexivity.
    + destruct (is_exception e); cbn [snd]; [|discriminate].
      intros [= <-]. discriminate.
Qed.

Lemma handle_clarification_request_witness :
  lookup [ ("task", Str "clarification");
           ("result", Str "What should I do with it?") ] "task"
    = Some (Str "clarification").
Proof.
  destruct (handle_clarification_request
              (answering "What should I do with it?") "minutes of a meeting" "")
    as [_ [_ [_ [_ [H _]]]]].
  apply H; reflexivity.
Defined.

(** C10: when the YouTube task ends without error on a content that
    holds the marker, the task label of the result is summarization or
    sentiment_analysis, and so never youtube_transcript. *)
Theorem execute_youtube_label (c : client) (content query : string) (d : pydict) :
  str_in youtube_marker content = true ->
  snd (execute "youtube_transcript" content query c) = Returned d ->
  lookup d "error" = None ->
  (lookup d "task" = Some (Str "summarization") \/
   lookup d "task" = Some (Str "sentiment_analysis")) /\
  lookup d "task" <> Some (Str "youtube_transcript") /\
  snd (_handle_youtube content query c) = Returned d.
Proof.
  intros Hm. rewrite execute_run.
  change (handlers_get handlers "youtube_transcript" _handle_conversational)
    with _handle_youtube.
  destruct (_handle_youtube content query c) as [sent [d0|e]] eqn:E; cbn [snd].
  - intros [= ->] _.
    rewrite handle_youtube_unfold, Hm in E.
    destruct (asks_sentiment query && negb (asks_summary query)).
    + assert (Hd : snd (ask 500 (sentiment_template ++ content ++ nl)
                            "sentiment_analysis" c) = Returned d)
        by now rewrite E.
      destruct (ask_returned _ _ _ _ _ Hd) as [text ->].
      split; [right; reflexivity | split; [discriminate | reflexivity]].
    + assert (Hd : snd (ask 1500 (summary_template ++ content ++ nl)
                            "summarization" c) = Returned d)
        by now rewrite E.
      destruct (ask_returned _ _ _ _ _ Hd) as [text ->].
      split; [left; reflexivity | split; [discriminate | reflexivity]].
  - destruct (is_exception e); cbn [snd]; [|discriminate].
    intros [= <-]. discriminate.
Qed.

Lemma execute_youtube_label_witness :
  lookup [ ("task", Str "summarization"); ("result", Str "A talk.") ] "task"
    <> Some (Str "youtube_transcript").
Proof.
  apply (execute_youtube_label (answering "A talk.")
           "https://youtu.be/abc

[YouTube Transcript]:
hello and welcome" "https://youtu.be/abc"
           [ ("task", Str "summarization"); ("result", Str "A talk.") ]);
    reflexivity.
Defined.

End TaskExecutorSpec.

(** ** Further properties of the intent detector *)

Module IntentDetectorMore.
Import PyStr Re PyStrFacts ReFacts IntentDetector IntentDetectorSpec.

#[local] Set Warnings "-inexact-float".

(** *** Helpers *)

(** Case analysis on everything [detect] looks at. *)
Ltac detect_cases text has_file :=
  rewrite (detect_unfold text has_file); cbv zeta;
  rewrite scan_intents_unfold;
  destruct (_contains_keywords (strip (lower text)) "youtube_transcript") eqn:Eyt;
  destruct (_contains_code text && _contains_explanation_request (strip (lower text)))
    eqn:Ecode;
  destruct (_contains_keywords (strip (lower text)) "summarization") eqn:Esum;
  destruct (_contains_keywords (strip (lower text)) "sentiment_analysis") eqn:Esen;
  destruct (_contains_keywords (strip (lower text)) "code_explanation") eqn:Ecx;
  destruct (_contains_keywords (strip (lower text)) "action_items") eqn:Eact.

Lemma str_in_trans (a b c : string) :
  str_in a b = true -> str_in b c = true -> str_in a c = true.
Proof.
  rewrite !str_in_iff. intros [p [q ->]] [p' [q' ->]].
  exists (p' ++ p), (q ++ q'). now rewrite !append_assoc.
Qed.

Lemma str_in_append (w a b : string) : str_in w (a ++ w ++ b) = true.
Proof. apply str_in_iff. now exists a, b. Qed.

Lemma sum_ones_pos {A : Type} (p : A -> bool) (xs : list A) :
  any p xs = true -> 1 <= sum_ones p xs.
Proof.
  unfold any. induction xs as [|x xs IH]; simpl; [discriminate|].
  destruct (p x); simpl; [lia | exact IH].
Qed.

(** A keyword found in the stripped lowercased text is counted by
    [get_confidence], which looks at the lowercased text. *)
Lemma keyword_counted (text intent : string) :
  _contains_keywords (strip (lower text)) intent = true ->
  1 <= sum_ones (fun keyword => str_in keyword (lower text))
                (dict_get INTENT_KEYWORDS intent []).
Proof.
  intros H. apply contains_keywords_strip in H. now apply sum_ones_pos.
Qed.

Lemma float_values_distinct :
  0.0%float <> 0.5%float /\ 0.0%float <> 0.75%float /\ 0.0%float <> 0.95%float.
Proof.
  repeat split; intros H;
    match type of H with
    | ?a = ?b =>
        assert (E : PrimFloat.leb b a = true) by (rewrite <- H; reflexivity);
        vm_compute in E; discriminate
    end.
Qed.

Lemma confidence_of_count (text : string) (has_file : bool) :
  detect text has_file <> "needs_clarification" ->
  get_confidence text has_file =
    let n := sum_ones (fun keyword => str_in keyword (lower text))
                      (dict_get INTENT_KEYWORDS (detect text has_file) []) in
    if (2 <=? n)%nat then 0.95%float
    else if (n =? 1)%nat then 0.75%float else 0.5%float.
Proof.
  intros H. unfold get_confidence. cbv zeta.
  destruct (String.eqb_spec (detect text has_file) "needs_clarification");
    [contradiction | reflexivity].
Qed.


(** *** Properties *)

(** X1: whatever the text and the flag, [detect] returns one of the seven
    task types of the executor's table, so [execute] never has to fall
    back on its default handler for a detected intent. *)
Theorem detect_has_handler (text : string) (has_file : bool) :
  In (detect text has_file)
     ["summarization"; "sentiment_analysis"; "code_explanation";
      "action_items"; "youtube_transcript"; "needs_clarification";
      "conversational"] /\
  exists h,
    In (detect text has_file, h) TaskExecutor.handlers /\
    forall default,
      TaskExecutor.handlers_get TaskExecutor.handlers
        (detect text has_file) default = h.
Proof.
  detect_cases text has_file;
    destruct (has_file && negb (_has_clear_instruction (strip (lower text))));
    (split; [cbn; tauto|]);
    eexists;
    (split; [cbn; repeat (first [left; reflexivity | right])
            | intros default; reflexivity]).
Qed.

(** X2: the attachment flag decides nothing but the last step: without
    an attachment the result is never needs_clarification, and when the
    flag changes the result, it changes it from conversational (no
    attachment) to needs_clarification (attachment). *)
Theorem detect_flag_effect (text : string) :
  detect text false <> "needs_clarification" /\
  (detect text true = detect text false \/
   (detect text true = "needs_clarification" /\
    detect text false = "conversational")).
Proof.
  split.
  - detect_cases text false; cbn [andb]; discriminate.
  - rewrite (detect_unfold text true), (detect_unfold text false). cbv zeta.
    destruct (_contains_keywords _ "youtube_transcript"); [now left|].
    destruct (_contains_code text && _); [now left|].
    destruct (scan_intents INTENT_KEYWORDS _); [now left|].
    cbn [andb]. destruct (negb _); [right; now split | now left].
Qed.

(** X3: when the detected intent is one that only a keyword can produce
    (summarization, sentiment_analysis, action_items, youtube_transcript)
    the confidence is 0.75 or 0.95, never 0.5 or 0.0. *)
Theorem confidence_keyword_intent (text : string) (has_file : bool) :
  In (detect text has_file)
     ["summarization"; "sentiment_analysis"; "action_items";
      "youtube_transcript"] ->
  get_confidence text has_file = 0.75%float \/
  get_confidence text has_file = 0.95%float.
Proof.
  intros Hin.
  assert (Hn : detect text has_file <> "needs_clarification").
  { intros E. rewrite E in Hin. cbn in Hin.
    repeat (destruct Hin as [Hin|Hin]; [discriminate|]). exact Hin. }
  assert (Hc : _contains_keywords (strip (lower text)) (detect text has_file) = true).
  { revert Hin. detect_cases text has_file;
      destruct (has_file && negb (_has_clear_instruction (strip (lower text))));
      cbn [In]; intros Hin; try assumption;
      repeat (destruct Hin as [Hin|Hin]; [discriminate|]); destruct Hin. }
  rewrite (confidence_of_count _ _ Hn). cbv zeta.
  pose proof (keyword_counted _ _ Hc) as Hpos.
  destruct (sum_ones _ _) as [|[|n]]; [lia | now left | now right].
Qed.

Lemma confidence_keyword_intent_witness :
  get_confidence "what is the TONE of this letter?" false = 0.75%float \/
  get_confidence "what is the TONE of this letter?" false = 0.95%float.
Proof.
  apply confidence_keyword_intent. vm_compute. tauto.
Defined.

(** X4: the confidence is 0.0 exactly when the intent is
    needs_clarification, and it is 0.5 for every conversational text. *)
Theorem confidence_zero_iff (text : string) (has_file : bool) :
  (get_confidence text has_file = 0.0%float <->
   detect text has_file = "needs_clarification") /\
  (detect text has_file = "conversational" ->
   get_confidence text has_file = 0.5%float).
Proof.
  destruct float_values_distinct as [D1 [D2 D3]].
  split; [split|].
  - unfold get_confidence. cbv zeta.
    destruct (String.eqb_spec (detect text has_file) "needs_clarification");
      [intros _; assumption|].
    destruct (2 <=? _)%nat; [intros E; symmetry in E; contradiction|].
    destruct (_ =? 1)%nat; intros E; symmetry in E; contradiction.
  - intros E. unfold get_confidence. cbv zeta. now rewrite E.
  - intros E. unfold get_confidence. cbv zeta. rewrite E. reflexivity.
Qed.

Lemma confidence_zero_iff_witness :
  get_confidence "Hello, how are you?" false = 0.5%float.
Proof.
  apply (confidence_zero_iff "Hello, how are you?" false).
  vm_compute. reflexivity.
Defined.

(** X5: a text in which youtube.com occurs, in any letter case, gets the
    confidence 0.95: the keywords youtube.com and youtube both count. *)
Theorem confidence_youtube_com (text : string) (has_file : bool) :
  str_in "youtube.com" (lower text) = true ->
  detect text has_file = "youtube_transcript" /\
  get_confidence text has_file = 0.95%float.
Proof.
  intros H.
  assert (H' : str_in "youtube" (lower text) = true)
    by (apply (str_in_trans _ "youtube.com"); [reflexivity | exact H]).
  assert (E : detect text has_file = "youtube_transcript").
  { rewrite detect_unfold. cbv zeta.
    assert (K : _contains_keywords (strip (lower text)) "youtube_transcript" = true).
    { unfold _contains_keywords. cbv zeta. apply any_true_iff.
      exists "youtube.com". split; [cbn; tauto|].
      apply str_in_strip_solid; [reflexivity | exact H]. }
    now rewrite K. }
  split; [exact E|].
  rewrite confidence_of_count by (rewrite E; discriminate).
  rewrite E. cbn [dict_get INTENT_KEYWORDS String.eqb Ascii.eqb Bool.eqb sum_ones].
  cbv zeta. rewrite H, H'.
  destruct (str_in "youtu.be" (lower text)), (str_in "video transcript" (lower text));
    reflexivity.
Qed.

Lemma confidence_youtube_com_witness :
  get_confidence "see www.YouTube.com/watch?v=abc" true = 0.95%float.
Proof.
  apply confidence_youtube_com. vm_compute. reflexivity.
Defined.

(** *** Code detection *)

Lemma matches_any_star (s : string) : matches (Star (Set_ AnyChar)) s.
Proof.
  induction s as [|c s IH]; [constructor|].
  change (String c s) with (String c "" ++ s).
  constructor; [|exact IH]. constructor.
  simpl. now destruct (isspace c).
Qed.

Lemma matches_Lit_inv (w s : string) : matches (Lit w) s -> s = w.
Proof.
  revert s. induction w as [|c w IH]; intros s H; simpl in H.
  - now apply matches_Eps_inv.
  - apply matches_Cat_inv in H as [s1 [s2 [-> [H1 H2]]]].
    apply matches_Set_inv in H1 as [d [-> Hd]]. simpl in Hd.
    apply Ascii.eqb_eq in Hd as <-. simpl. f_equal. now apply IH.
Qed.

(** A word of a pattern that begins with literal text begins with it. *)
Lemma matches_Seq_head (w : string) (r : regex) (rs : list regex) (p : string) :
  matches (Seq (Lit w :: r :: rs)) p -> exists q, p = w ++ q.
Proof.
  change (Seq (Lit w :: r :: rs)) with (Cat (Lit w) (Seq (r :: rs))).
  intros H. apply matches_Cat_inv in H as [s1 [s2 [-> [H1 _]]]].
  apply matches_Lit_inv in H1 as ->. now exists s2.
Qed.

Lemma lower_char_idem (c : ascii) : lower_char (lower_char c) = lower_char c.
Proof.
  destruct c as [[] [] [] [] [] [] [] []]; reflexivity.
Qed.

Lemma lower_idem (s : string) : lower (lower s) = lower s.
Proof.
  induction s as [|c s IH]; simpl; [reflexivity|].
  now rewrite lower_char_idem, IH.
Qed.

(** X6: a text that holds a fenced block, three backquotes, anything,
    three backquotes, counts as code; with an explanation phrase and no
    YouTube keyword it is classified as code_explanation, whatever other
    keywords it holds. *)
Theorem fenced_block_is_code (a b c : string) (has_file : bool) :
  let text := a ++ "```" ++ b ++ "```" ++ c in
  _contains_code text = true /\
  (_contains_keywords (strip (lower text)) "youtube_transcript" = false ->
   _contains_explanation_request (strip (lower text)) = true ->
   detect text has_file = "code_explanation").
Proof.
  intros text.
  assert (Hcode : _contains_code text = true).
  { unfold _contains_code. apply any_true_iff.
    exists (Seq [Lit "```"; Star (Set_ AnyChar); Lit "```"]).
    split; [cbn; tauto|].
    apply search_iff. exists a, ("```" ++ b ++ "```"), c. split.
    - unfold text. now rewrite !append_assoc.
    - change (Seq [Lit "```"; Star (Set_ AnyChar); Lit "```"])
        with (Cat (Lit "```") (Cat (Star (Set_ AnyChar)) (Lit "```"))).
      constructor; [apply matches_Lit|].
      constructor; [apply matches_any_star | apply matches_Lit]. }
  split; [exact Hcode|].
  intros Hyt Hex. rewrite detect_unfold. cbv zeta. fold text.
  now rewrite Hyt, Hcode, Hex.
Qed.

Lemma fenced_block_is_code_witness :
  detect "Please explain and summarize: ```x = 1```" false = "code_explanation".
Proof.
  apply (fenced_block_is_code "Please explain and summarize: " "x = 1" "" false);
    vm_compute; reflexivity.
Defined.

(** X7: a text counts as code only if one of the eleven opening words of
    the patterns occurs in it, in that exact letter case. *)
Theorem code_needs_opening_word (text : string) :
  _contains_code text = true ->
  exists w,
    In w ["def"; "function"; "class"; "import"; "from"; "const"; "let";
          "var"; "public"; "private"; "```"] /\
    str_in w text = true.
Proof.
  unfold _contains_code. rewrite any_true_iff.
  intros [pattern [Hin Hs]].
  apply search_iff in Hs as [a [p [b [-> Hm]]]].
  assert (H : exists w q,
             In w ["def"; "function"; "class"; "import"; "from"; "const";
                   "let"; "var"; "public"; "private"; "```"] /\ p = w ++ q).
  { unfold compiled_patterns, CODE_PATTERNS in Hin. cbn [In] in Hin.
    repeat (destruct Hin as [<-|Hin];
            [apply matches_Seq_head in Hm as [q ->];
             eexists; exists q; split; [|reflexivity]; cbn [In]; tauto|]).
    destruct Hin. }
  destruct H as [w [q [Hw ->]]]. exists w. split; [exact Hw|].
  apply str_in_iff. exists a, (q ++ b). now rewrite !append_assoc.
Qed.

Lemma code_needs_opening_word_witness :
  exists w,
    In w ["def"; "function"; "class"; "import"; "from"; "const"; "let";
          "var"; "public"; "private"; "```"] /\
    str_in w "import os" = true.
Proof.
  apply code_needs_opening_word. vm_compute. reflexivity.
Defined.

(** X8: letter case matters to the classification only through code
    detection: two texts with the same lowercased form on which code
    detection agrees get the same intent and the same confidence. *)
Theorem detect_case_insensitive (text text' : string) (has_file : bool) :
  lower text = lower text' ->
  _contains_code text = _contains_code text' ->
  detect text has_file = detect text' has_file /\
  get_confidence text has_file = get_confidence text' has_file.
Proof.
  intros Hl Hc.
  assert (E : detect text has_file = detect text' has_file)
    by (rewrite !detect_unfold; cbv zeta; now rewrite Hl, Hc).
  split; [exact E|].
  unfold get_confidence. cbv zeta. now rewrite E, Hl.
Qed.

Lemma detect_case_insensitive_witness :
  detect "SUMMARIZE This Report" true = detect "summarize this report" true /\
  get_confidence "SUMMARIZE This Report" true
    = get_confidence "summarize this report" true.
Proof.
  apply detect_case_insensitive; vm_compute; reflexivity.
Defined.

End IntentDetectorMore.

(** ** Further properties of the task executor *)

Module TaskExecutorMore.
Import PyStr PyStrFacts TaskExecutor TaskExecutorSpec.

(** *** Helpers *)

(** Every handler the table can select is one [ask]. *)
Lemma selected_handler_is_ask (task_type content query : string) :
  exists ceiling prompt label,
    handlers_get handlers task_type _handle_conversational content query
      = ask ceiling prompt label /\
    In ceiling [300; 500; 1000; 1500; 2000] /\
    (label = task_type \/ label = "clarification" \/ label = "conversational" \/
     label = "summarization" \/ label = "sentiment_analysis").
Proof.
  unfold handlers. cbn [handlers_get].
  destruct (String.eqb_spec "summarization" task_type) as [<-|_];
    [exists 1500; do 2 eexists; split; [reflexivity|]; cbn; tauto|].
  destruct (String.eqb_spec "sentiment_analysis" task_type) as [<-|_];
    [exists 500; do 2 eexists; split; [reflexivity|]; cbn; tauto|].
  destruct (String.eqb_spec "code_explanation" task_type) as [<-|_];
    [exists 2000; do 2 eexists; split; [reflexivity|]; cbn; tauto|].
  destruct (String.eqb_spec "action_items" task_type) as [<-|_];
    [exists 1000; do 2 eexists; split; [reflexivity|]; cbn; tauto|].
  destruct (String.eqb_spec "needs_clarification" task_type) as [<-|_];
    [exists 300; do 2 eexists; split; [reflexivity|]; cbn; tauto|].
  destruct (String.eqb_spec "conversational" task_type) as [<-|_];
    [exists 1000; do 2 eexists; split; [reflexivity|]; cbn; tauto|].
  destruct (String.eqb_spec "youtube_transcript" task_type) as [<-|_];
    [|exists 1000; do 2 eexists; split; [reflexivity|]; cbn; tauto].
  rewrite handle_youtube_unfold.
  destruct (str_in youtube_marker content);
    [destruct (asks_sentiment query && negb (asks_summary query))|].
  - exists 500. do 2 eexists. split; [reflexivity|]. cbn; tauto.
  - exists 1500. do 2 eexists. split; [reflexivity|]. cbn; tauto.
  - exists 500. do 2 eexists. split; [reflexivity|]. cbn; tauto.
Qed.

Lemma execute_ask (task_type content query : string) (c : client)
    (ceiling : nat) (prompt label : string) :
  handlers_get handlers task_type _handle_conversational content query
    = ask ceiling prompt label ->
  execute task_type content query c =
    ([prompt_request ceiling prompt],
     match c (prompt_request ceiling prompt) with
     | Raised e =>
         if is_exception e then Returned (error_result task_type e)
         else Raised e
     | Returned r =>
         match resp_content r with
         | [] => Returned (error_result task_type
                             (Exception "list index out of range"))
         | TextBlock t :: _ =>
             Returned [ ("task", Str label); ("result", Str t) ]
         | OtherBlock cls :: _ =>
             Returned (error_result task_type
                         (Exception ("'" ++ cls ++
                                     "' object has no attribute 'text'")))
         end
     end).
Proof.
  intros H. rewrite execute_run, H, ask_run.
  destruct (c _) as [r|e]; [|now destruct (is_exception e)].
  destruct (resp_content r) as [|[t|cls] bs]; reflexivity.
Qed.

(** After its one request [execute] returns a dictionary with a string
    under result, unless the provider raised something that is not an
    [Exception], which then leaves [execute]. *)
Lemma execute_cases (task_type content query : string) (c : client) :
  exists ceiling prompt,
    (exists d r,
        execute task_type content query c
          = ([prompt_request ceiling prompt], Returned d) /\
        lookup d "result" = Some (Str r)) \/
    (exists e,
        execute task_type content query c
          = ([prompt_request ceiling prompt], Raised e) /\
        is_exception e = false /\
        c (prompt_request ceiling prompt) = Raised e).
Proof.
  destruct (selected_handler_is_ask task_type content query)
    as [ceiling [prompt [label [H _]]]].
  exists ceiling, prompt. rewrite (execute_ask _ _ _ c _ _ _ H).
  destruct (c _) as [r|e].
  - left. destruct (resp_content r) as [|[t|cls] bs]; do 2 eexists;
      (split; [reflexivity|]); reflexivity.
  - destruct (is_exception e) eqn:E.
    + left. do 2 eexists. split; reflexivity.
    + right. now exists e.
Qed.

(** *** Properties *)

(** X9: whatever the task type and the texts, when [execute] returns, it
    returns a dictionary with a string under task and a string under
    result; the error entry is either absent or True, and when it is True
    the task entry is the requested task type.  It returns unless the
    provider raised, on the one request sent, an exception that is not an
    instance of Exception; that exception then leaves [execute]. *)
Theorem execute_result_shape (task_type content query : string) (c : client) :
  (exists sent d t r,
      execute task_type content query c = (sent, Returned d) /\
      lookup d "task" = Some (Str t) /\
      lookup d "result" = Some (Str r) /\
      (lookup d "error" = None \/
       (lookup d "error" = Some (Bool true) /\ t = task_type))) \/
  (exists req e,
      execute task_type content query c = ([req], Raised e) /\
      is_exception e = false /\
      c req = Raised e).
Proof.
  destruct (selected_handler_is_ask task_type content query)
    as [ceiling [prompt [label [H _]]]].
  rewrite (execute_ask _ _ _ c _ _ _ H).
  destruct (c _) as [r|e] eqn:Ec.
  - left. destruct (resp_content r) as [|[t|cls] bs]; do 4 eexists;
      (split; [reflexivity|]); cbn; repeat split; auto.
  - destruct (is_exception e) eqn:E.
    + left. do 4 eexists. split; [reflexivity|]. cbn. repeat split; auto.
    + right. exists (prompt_request ceiling prompt), e. now repeat split.
Qed.

(** X10: one call of [execute] sends exactly one request to the
    provider, also when the provider fails: it names the model of the
    executor, holds a single user message, and its token ceiling is one
    of 300, 500, 1000, 1500 and 2000. *)
Theorem execute_single_request (task_type content query : string) (c : client) :
  exists ceiling prompt,
    fst (execute task_type content query c) =
      [ {| model := "claude-sonnet-4-20250514"; max_tokens := ceiling;
           messages := [ {| role := "user"; msg_content := prompt |} ] |} ] /\
    In ceiling [300; 500; 1000; 1500; 2000].
Proof.
  destruct (selected_handler_is_ask task_type content query)
    as [ceiling [prompt [label [H [Hc _]]]]].
  exists ceiling, prompt. split; [|exact Hc].
  now rewrite (execute_ask _ _ _ c _ _ _ H).
Qed.

(** X11: for summarization, sentiment_analysis, code_explanation,
    action_items and conversational the task entry of the result is the
    requested task type, whether the provider answered or failed. *)
Theorem execute_label_is_task_type (task_type content query : string)
    (c : client) (d : pydict) :
  In task_type ["summarization"; "sentiment_analysis"; "code_explanation";
                "action_items"; "conversational"] ->
  snd (execute task_type content query c) = Returned d ->
  lookup d "task" = Some (Str task_type).
Proof.
  intros Hin.
  assert (H : exists ceiling prompt,
             handlers_get handlers task_type _handle_conversational content query
               = ask ceiling prompt task_type).
  { cbn [In] in Hin.
    repeat (destruct Hin as [<-|Hin]; [do 2 eexists; reflexivity|]).
    destruct Hin. }
  destruct H as [ceiling [prompt H]].
  rewrite (execute_ask _ _ _ c _ _ _ H). cbn [snd].
  destruct (c _) as [r|e].
  - destruct (resp_content r) as [|[t|cls] bs]; intros [= <-]; reflexivity.
  - destruct (is_exception e); [|discriminate]. intros [= <-]. reflexivity.
Qed.

Lemma execute_label_is_task_type_witness :
  lookup [ ("task", Str "action_items"); ("result", Str "1. Call Ann") ] "task"
    = Some (Str "action_items").
Proof.
  apply (execute_label_is_task_type "action_items" "Call Ann tomorrow" ""
           (answering "1. Call Ann")).
  - cbn. tauto.
  - reflexivity.
Defined.

(** X12: when the provider answers with a text block first, that text
    is the result entry, unchanged, and there is no error entry. *)
Theorem execute_passes_text_through (task_type content query text : string)
    (c : client) :
  (forall req, exists rest,
      c req = Returned {| resp_content := TextBlock text :: rest |}) ->
  exists sent label,
    execute task_type content query c =
      (sent, Returned [ ("task", Str label); ("result", Str text) ]).
Proof.
  intros Hc.
  destruct (selected_handler_is_ask task_type content query)
    as [ceiling [prompt [label [H _]]]].
  rewrite (execute_ask _ _ _ c _ _ _ H).
  destruct (Hc (prompt_request ceiling prompt)) as [rest ->].
  now do 2 eexists.
Qed.

Lemma execute_passes_text_through_witness :
  exists sent label,
    execute "code_explanation" "x = 1" "" (answering "**Purpose:** sets x") =
      (sent, Returned [ ("task", Str label);
                        ("result", Str "**Purpose:** sets x") ]).
Proof.
  apply execute_passes_text_through. intros req. now exists [].
Defined.

(** X13: when the provider answers with no content block at all, the
    result is the error dictionary for the requested task type, with the
    message of the failed index. *)
Theorem execute_empty_response (task_type content query : string) (c : client) :
  (forall req, c req = Returned {| resp_content := [] |}) ->
  snd (execute task_type content query c) =
    Returned [ ("task", Str task_type);
               ("result", Str "Error executing task: list index out of range");
               ("error", Bool true) ].
Proof.
  intros Hc.
  destruct (selected_handler_is_ask task_type content query)
    as [ceiling [prompt [label [H _]]]].
  rewrite (execute_ask _ _ _ c _ _ _ H), Hc. reflexivity.
Qed.

Lemma execute_empty_response_witness :
  snd (execute "summarization" "text" ""
         (fun _ => Returned {| resp_content := [] |})) =
    Returned [ ("task", Str "summarization");
               ("result", Str "Error executing task: list index out of range");
               ("error", Bool true) ].
Proof.
  apply execute_empty_response. reflexivity.
Defined.

(** X14: for summarization, sentiment_analysis, code_explanation and
    action_items the original query plays no part: the request sent and
    the result are the same for every query. *)
Theorem execute_ignores_query (task_type content query query' : string)
    (c : client) :
  In task_type ["summarization"; "sentiment_analysis"; "code_explanation";
                "action_items"] ->
  execute task_type content query c = execute task_type content query' c.
Proof.
  cbn [In]. intros Hin.
  repeat (destruct Hin as [<-|Hin]; [reflexivity|]). destruct Hin.
Qed.

Lemma execute_ignores_query_witness :
  execute "summarization" "a long text" "summarize it" (answering "ok") =
  execute "summarization" "a long text" "" (answering "ok").
Proof.
  apply execute_ignores_query. cbn. tauto.
Defined.

End TaskExecutorMore.

(** ** Properties of the YouTube service *)

Module YouTubeServiceSpec.
Import PyStr PyStrFacts IntentDetector IntentDetectorSpec IntentDetectorMore
  YouTubeService.

(** *** The matcher *)

Lemma drop_prefix_iff (w s r : string) :
  drop_prefix w s = Some r <-> s = w ++ r.
Proof.
  revert s. induction w as [|a w IH]; intros [|b s]; simpl.
  - split; [now intros [= <-] | now intros <-].
  - split; [now intros [= <-] | now intros <-].
  - split; discriminate.
  - destruct (Ascii.eqb_spec a b) as [->|Hne].
    + rewrite IH. split; [now intros -> | now intros [= ->]].
    + split; [discriminate | intros [= E _]; congruence].
Qed.

Lemma take_set_sound (n : nat) (k : ascii -> bool) (s t r : string) :
  take_set n k s = Some (t, r) ->
  s = t ++ r /\ String.length t = n /\ all_chars k t = true.
Proof.
  revert s t r. induction n as [|n IH]; intros s t r; simpl.
  - intros [= <- <-]. now repeat split.
  - destruct s as [|c s]; [discriminate|].
    destruct (k c) eqn:Ek; [|discriminate].
    destruct (take_set n k s) as [[t' r']|] eqn:E; [|discriminate].
    intros [= <- <-]. destruct (IH _ _ _ E) as [-> [Hl Ha]].
    simpl. rewrite Ek, Ha, Hl. now repeat split.
Qed.

Lemma take_set_complete (k : ascii -> bool) (t r : string) :
  all_chars k t = true -> take_set (String.length t) k (t ++ r) = Some (t, r).
Proof.
  induction t as [|c t IH]; simpl; [reflexivity|].
  intros H. apply andb_true_iff in H as [Hc Ht].
  now rewrite Hc, IH.
Qed.

Lemma slice_to_append (t r : string) :
  slice_to (String.length (t ++ r) - String.length r) (t ++ r) = t.
Proof.
  rewrite length_append.
  replace (String.length t + String.length r - String.length r)
    with (String.length t) by lia.
  induction t as [|c t IH]; simpl.
  - now destruct r.
  - now rewrite IH.
Qed.

(** Whatever a pattern matches is a prefix of the text it is run on. *)
Lemma run_consumes (p : pat) (s : string) (g : option string) (st : mstate) :
  In st (run p s g) -> exists consumed, s = consumed ++ fst st.
Proof.
  revert s g st. induction p as [w|p IH|p IHp q IHq|n k|p IH]; intros s g st; simpl.
  - destruct (drop_prefix w s) as [r|] eqn:E; [|intros []].
    intros [<-|[]]. apply drop_prefix_iff in E. now exists w.
  - rewrite in_app_iff. intros [H|[<-|[]]]; [now apply IH in H | now exists ""].
  - rewrite in_flat_map. intros [st1 [H1 H2]].
    apply IHp in H1 as [c1 ->]. apply IHq in H2 as [c2 E].
    exists (c1 ++ c2). now rewrite append_assoc, <- E.
  - destruct (take_set n k s) as [[t r]|] eqn:E; [|intros []].
    intros [<-|[]]. apply take_set_sound in E as [-> _]. now exists t.
  - rewrite in_map_iff. intros [st1 [<- H]]. now apply IH in H.
Qed.

(** A match of the group of eleven id characters records them. *)
Lemma run_video_id_group (s : string) (g : option string) (st : mstate) :
  In st (run video_id_group s g) ->
  exists id, s = id ++ fst st /\ snd st = Some id /\ is_video_id id = true.
Proof.
  unfold video_id_group. cbn [run].
  destruct (take_set 11 is_id_char s) as [[t r]|] eqn:E; cbn [map In];
    [|intros []].
  intros [<-|[]]. apply take_set_sound in E as [-> [Hl Ha]].
  exists t. cbn [fst snd]. rewrite slice_to_append.
  repeat split. unfold is_video_id. now rewrite Hl, Ha.
Qed.

(** A match of a URL pattern holds the site text followed by the id of
    group 1. *)
Lemma run_url_pattern (site s : string) (st : mstate) :
  In st (run (url_pattern site) s None) ->
  exists pre id,
    s = pre ++ site ++ id ++ fst st /\ snd st = Some id /\
    is_video_id id = true.
Proof.
  unfold url_pattern. cbn [run]. rewrite in_flat_map.
  intros [st1 [H1 H]]. apply run_consumes in H1 as [c1 ->].
  rewrite in_flat_map in H. destruct H as [st2 [H2 H]].
  apply run_consumes in H2 as [c2 E2]. rewrite E2.
  rewrite in_flat_map in H. destruct H as [st3 [H3 H]].
  cbn [run] in H3.
  destruct (drop_prefix site (fst st2)) as [r|] eqn:E; [|destruct H3].
  destruct H3 as [<-|[]]. apply drop_prefix_iff in E as ->.
  cbn [fst snd] in H. apply run_video_id_group in H as [id [-> [Hg Hid]]].
  exists (c1 ++ c2), id. now rewrite !append_assoc.
Qed.

Lemma search_sound (p : pat) (s : string) (g : option string) :
  search p s = Some g ->
  exists a s' st, s = a ++ s' /\ In st (run p s' None) /\ snd st = g.
Proof.
  induction s as [|c s IH]; cbn [search].
  - destruct (run p "" None) as [|st l] eqn:E; [discriminate|].
    intros [= <-]. exists "", "", st. rewrite E. repeat split. now left.
  - destruct (run p (String c s) None) as [|st l] eqn:E.
    + intros H. destruct (IH H) as [a [s' [st [-> [Hin Hg]]]]].
      now exists (String c a), s', st.
    + intros [= <-]. exists "", (String c s), st. rewrite E.
      repeat split. now left.
Qed.

Lemma search_complete (p : pat) (a s : string) :
  run p s None <> [] -> search p (a ++ s) <> None.
Proof.
  intros H. induction a as [|c a IH]; simpl.
  - destruct s; cbn [search]; destruct (run p _ None); congruence.
  - destruct (run p (String c (a ++ s)) None); [exact IH | discriminate].
Qed.

Lemma search_here (p : pat) (s : string) (st : mstate) (l : list mstate) :
  run p s None = st :: l -> search p s = Some (snd st).
Proof. intros H. destruct s; cbn [search]; now rewrite H. Qed.

(** The first choices of the matcher. *)
Lemma hd_Text (w r : string) (g : option string) :
  hd_error (run (Text w) (w ++ r) g) = Some (r, g).
Proof.
  simpl. assert (E : drop_prefix w (w ++ r) = Some r) by now apply drop_prefix_iff.
  now rewrite E.
Qed.

Lemma hd_Opt (p : pat) (s : string) (g : option string) (st : mstate) :
  hd_error (run p s g) = Some st -> hd_error (run (Opt p) s g) = Some st.
Proof. simpl. destruct (run p s g); [discriminate | trivial]. Qed.

Lemma hd_Then (p q : pat) (s : string) (g : option string) (st1 st2 : mstate) :
  hd_error (run p s g) = Some st1 ->
  hd_error (run q (fst st1) (snd st1)) = Some st2 ->
  hd_error (run (Then p q) s g) = Some st2.
Proof.
  simpl. destruct (run p s g) as [|x l]; [discriminate|].
  intros [= ->]. simpl. destruct (run q _ _); [discriminate | trivial].
Qed.

Lemma hd_video_id_group (id r : string) (g : option string) :
  is_video_id id = true ->
  hd_error (run video_id_group (id ++ r) g) = Some (r, Some id).
Proof.
  unfold is_video_id. intros H. apply andb_true_iff in H as [Hl Ha].
  apply Nat.eqb_eq in Hl. unfold video_id_group. cbn [run].
  rewrite <- Hl, (take_set_complete _ _ _ Ha). cbn [map hd_error fst].
  now rewrite slice_to_append.
Qed.

(** A full URL, scheme and www included, is matched at its start. *)
Lemma hd_full_url (site id r : string) :
  is_video_id id = true ->
  hd_error (run (url_pattern site) ("https://www." ++ site ++ id ++ r) None)
    = Some (r, Some id).
Proof.
  intros Hid. unfold url_pattern.
  eapply hd_Then.
  { unfold scheme. apply hd_Opt.
    change ("https://www." ++ site ++ id ++ r)
      with ("http" ++ "s" ++ "://" ++ "www." ++ site ++ id ++ r).
    eapply hd_Then; [apply hd_Text|]. cbn [fst snd].
    eapply hd_Then; [apply hd_Opt, hd_Text|]. cbn [fst snd].
    apply hd_Text. }
  cbn [fst snd]. eapply hd_Then; [apply hd_Opt, hd_Text|]. cbn [fst snd].
  eapply hd_Then; [apply hd_Text|]. cbn [fst snd].
  now apply hd_video_id_group.
Qed.

(** Without scheme and www the site text is matched where it stands. *)
Lemma run_bare_url (site id r : string) :
  is_video_id id = true ->
  run (url_pattern site) (site ++ id ++ r) None <> [].
Proof.
  intros Hid. unfold url_pattern. cbn [run].
  assert (Hs : In (site ++ id ++ r, None) (run scheme (site ++ id ++ r) None)).
  { unfold scheme. cbn [run]. apply in_or_app. right. now left. }
  assert (Hw : In (site ++ id ++ r, None) (run www (site ++ id ++ r) None)).
  { unfold www. cbn [run]. apply in_or_app. right. now left. }
  assert (Hv : In (r, Some id) (run video_id_group (id ++ r) None)).
  { pose proof (hd_video_id_group id r None Hid) as H.
    destruct (run video_id_group (id ++ r) None); [discriminate|].
    injection H as ->. now left. }
  assert (Hin : In (r, Some id)
                  (flat_map (fun st => run
                     (Then www (Then (Text site) video_id_group)) (fst st) (snd st))
                     (run scheme (site ++ id ++ r) None))).
  { apply in_flat_map. exists (site ++ id ++ r, None). split; [exact Hs|].
    cbn [run fst snd]. apply in_flat_map.
    exists (site ++ id ++ r, None). split; [exact Hw|].
    cbn [fst snd]. apply in_flat_map. exists (id ++ r, None). split.
    - assert (E : drop_prefix site (site ++ id ++ r) = Some (id ++ r))
        by now apply drop_prefix_iff.
      rewrite E. now left.
    - exact Hv. }
  intros E. cbn [run] in Hin. rewrite E in Hin. destruct Hin.
Qed.

Lemma search_url_pattern (site text : string) (g : option string) :
  search (url_pattern site) text = Some g ->
  exists a id b,
    text = a ++ site ++ id ++ b /\ g = Some id /\ is_video_id id = true.
Proof.
  intros H. apply search_sound in H as [a [s' [st [-> [Hin <-]]]]].
  apply run_url_pattern in Hin as [pre [id [-> [Hg Hid]]]].
  exists (a ++ pre), id, (fst st). now rewrite append_assoc.
Qed.

Lemma extract_url_loop_sound (patterns : list pat) (text url : string) :
  extract_url_loop patterns text = Some url ->
  exists pattern g,
    In pattern patterns /\ search pattern text = Some g /\
    url = "https://www.youtube.com/watch?v=" ++ format_group g.
Proof.
  induction patterns as [|p ps IH]; simpl; [discriminate|].
  destruct (search p text) as [g|] eqn:E.
  - intros [= <-]. exists p, g. auto.
  - intros H. destruct (IH H) as [p' [g [Hin Hs]]]. exists p', g. auto.
Qed.

Lemma lower_append (a b : string) : lower (a ++ b) = lower a ++ lower b.
Proof. induction a as [|c a IH]; simpl; [reflexivity | now rewrite IH]. Qed.

Lemma str_in_lower (w s : string) :
  str_in w s = true -> str_in (lower w) (lower s) = true.
Proof.
  rewrite !str_in_iff. intros [a [b ->]].
  exists (lower a), (lower b). now rewrite !lower_append.
Qed.

Lemma youtube_keyword_detected (text kw : string) (has_file : bool) :
  In kw ["youtube.com"; "youtu.be"; "youtube"; "video transcript"] ->
  str_in kw (lower text) = true ->
  detect text has_file = "youtube_transcript".
Proof.
  intros Hin Hkw. rewrite detect_unfold. cbv zeta.
  assert (E : _contains_keywords (strip (lower text)) "youtube_transcript" = true).
  { unfold _contains_keywords. cbv zeta. apply any_true_iff.
    exists kw. split; [exact Hin|].
    apply str_in_strip_solid; [|exact Hkw].
    cbn [In] in Hin.
    repeat (destruct Hin as [<-|Hin]; [reflexivity|]). destruct Hin. }
  now rewrite E.
Qed.

Lemma video_id_length (id : string) :
  is_video_id id = true -> String.length id = 11.
Proof.
  unfold is_video_id. intros H. apply andb_true_iff in H as [H _].
  now apply Nat.eqb_eq.
Qed.

(** A text in which [extract_url] finds a URL holds one of the three
    site texts. *)
Lemma extract_url_site (text url : string) :
  extract_url text = Some url ->
  exists site,
    In site ["youtube.com/watch?v="; "youtu.be/"; "youtube.com/embed/"] /\
    str_in site text = true.
Proof.
  unfold extract_url. destruct (String.eqb text ""); [discriminate|].
  intros H. apply extract_url_loop_sound in H as [p [g [Hin [Hs _]]]].
  unfold compiled_patterns, URL_PATTERNS in Hin. cbn [In] in Hin.
  repeat (destruct Hin as [<-|Hin];
          [apply search_url_pattern in Hs as [a [id [b [-> _]]]];
           eexists; split; [|apply str_in_append]; cbn [In]; tauto|]).
  destruct Hin.
Qed.

Lemma extract_url_keyword (text url : string) :
  extract_url text = Some url ->
  exists kw,
    In kw ["youtube.com"; "youtu.be"; "youtube"; "video transcript"] /\
    str_in kw (lower text) = true.
Proof.
  intros H. destruct (extract_url_site _ _ H) as [site [Hin Hs]].
  apply str_in_lower in Hs. cbn [In] in Hin.
  destruct Hin as [<-|[<-|[<-|[]]]].
  - exists "youtube.com". split; [cbn; tauto|].
    apply (str_in_trans _ (lower "youtube.com/watch?v=")); [reflexivity | exact Hs].
  - exists "youtu.be". split; [cbn; tauto|].
    apply (str_in_trans _ (lower "youtu.be/")); [reflexivity | exact Hs].
  - exists "youtube.com". split; [cbn; tauto|].
    apply (str_in_trans _ (lower "youtube.com/embed/")); [reflexivity | exact Hs].
Qed.

(** Such a text is not blank. *)
Lemma extract_url_not_blank (text url : string) :
  extract_url text = Some url -> String.eqb (strip text) "" = false.
Proof.
  intros H. destruct (extract_url_site _ _ H) as [site [Hin Hs]].
  assert (K : str_in site (strip text) = true).
  { apply str_in_strip_solid; [|exact Hs]. cbn [In] in Hin.
    repeat (destruct Hin as [<-|Hin]; [reflexivity|]). destruct Hin. }
  destruct (String.eqb_spec (strip text) "") as [E|]; [|reflexivity].
  rewrite E in K. cbn [In] in Hin.
  repeat (destruct Hin as [<-|Hin]; [discriminate|]). destruct Hin.
Qed.

(** *** Properties *)

(** X15: the URL that [extract_url] returns is always the watch URL of
    an id that stands in the text right after youtube.com/watch?v=,
    youtu.be/ or youtube.com/embed/: eleven characters out of letters,
    digits, underscore and hyphen; the URL is 43 characters long. *)
Theorem extract_url_canonical (text url : string) :
  extract_url text = Some url ->
  exists site id a b,
    In site ["youtube.com/watch?v="; "youtu.be/"; "youtube.com/embed/"] /\
    text = a ++ site ++ id ++ b /\
    is_video_id id = true /\
    url = "https://www.youtube.com/watch?v=" ++ id /\
    String.length url = 43.
Proof.
  unfold extract_url. destruct (String.eqb text ""); [discriminate|].
  intros H. apply extract_url_loop_sound in H as [p [g [Hin [Hs ->]]]].
  unfold compiled_patterns, URL_PATTERNS in Hin. cbn [In] in Hin.
  assert (K : exists site,
             In site ["youtube.com/watch?v="; "youtu.be/"; "youtube.com/embed/"] /\
             p = url_pattern site).
  { repeat (destruct Hin as [<-|Hin];
            [eexists; split; [|reflexivity]; cbn [In]; tauto|]).
    destruct Hin. }
  destruct K as [site [Hsite ->]].
  apply search_url_pattern in Hs as [a [id [b [-> [-> Hid]]]]].
  exists site, id, a, b. repeat split; try assumption.
  cbn [format_group]. rewrite length_append, (video_id_length _ Hid).
  reflexivity.
Qed.

Lemma extract_url_canonical_witness :
  exists site id a b,
    In site ["youtube.com/watch?v="; "youtu.be/"; "youtube.com/embed/"] /\
    "watch youtu.be/dQw4w9WgXcQ?t=3 please" = a ++ site ++ id ++ b /\
    is_video_id id = true /\
    "https://www.youtube.com/watch?v=dQw4w9WgXcQ"
      = "https://www.youtube.com/watch?v=" ++ id /\
    String.length "https://www.youtube.com/watch?v=dQw4w9WgXcQ" = 43.
Proof.
  apply (extract_url_canonical "watch youtu.be/dQw4w9WgXcQ?t=3 please").
  vm_compute. reflexivity.
Defined.

(** X16: a URL returned by [extract_url] goes back through the service
    unchanged: [extract_video_id] finds its id, and [extract_url] applied
    to it returns it again. *)
Theorem extracted_url_round_trip (text url : string) :
  extract_url text = Some url ->
  exists id,
    url = "https://www.youtube.com/watch?v=" ++ id /\
    extract_video_id url = Some id /\
    extract_url url = Some url.
Proof.
  unfold extract_url at 1. destruct (String.eqb text ""); [discriminate|].
  intros H. apply extract_url_loop_sound in H as [p [g [Hin [Hs ->]]]].
  assert (K : exists id, g = Some id /\ is_video_id id = true).
  { unfold compiled_patterns, URL_PATTERNS in Hin. cbn [In] in Hin.
    repeat (destruct Hin as [<-|Hin];
            [apply search_url_pattern in Hs as [a [id [b [_ [-> Hid]]]]];
             now exists id|]).
    destruct Hin. }
  destruct K as [id [-> Hid]]. exists id. cbn [format_group].
  pose proof (hd_full_url "youtube.com/watch?v=" id "" Hid) as Hhd.
  rewrite !append_nil_r in Hhd.
  change ("https://www." ++ "youtube.com/watch?v=" ++ id)
    with ("https://www.youtube.com/watch?v=" ++ id) in Hhd.
  destruct (run (url_pattern "youtube.com/watch?v=")
                ("https://www.youtube.com/watch?v=" ++ id) None)
    as [|st l] eqn:E; [discriminate|].
  injection Hhd as ->.
  apply search_here in E. cbn [snd] in E.
  split; [reflexivity|]. split.
  - unfold extract_video_id, compiled_patterns, URL_PATTERNS.
    cbn [extract_video_id_loop]. now rewrite E.
  - unfold extract_url, compiled_patterns, URL_PATTERNS.
    change (String.eqb ("https://www.youtube.com/watch?v=" ++ id) "") with false.
    cbn [extract_url_loop]. now rewrite E.
Qed.

Lemma extracted_url_round_trip_witness :
  exists id,
    "https://www.youtube.com/watch?v=ABC_def-123"
      = "https://www.youtube.com/watch?v=" ++ id /\
    extract_video_id "https://www.youtube.com/watch?v=ABC_def-123" = Some id /\
    extract_url "https://www.youtube.com/watch?v=ABC_def-123"
      = Some "https://www.youtube.com/watch?v=ABC_def-123".
Proof.
  apply (extracted_url_round_trip "http://youtube.com/embed/ABC_def-123x").
  vm_compute. reflexivity.
Defined.

(** X17: whenever [extract_url] finds a URL in a text, [detect]
    classifies that text as youtube_transcript, with or without a file. *)
Theorem extracted_url_means_youtube_intent (text url : string)
    (has_file : bool) :
  extract_url text = Some url ->
  detect text has_file = "youtube_transcript".
Proof.
  intros H. destruct (extract_url_keyword _ _ H) as [kw [Hin Hkw]].
  now apply (youtube_keyword_detected _ kw).
Qed.

Lemma extracted_url_means_youtube_intent_witness :
  detect "explain https://youtu.be/dQw4w9WgXcQ" false = "youtube_transcript".
Proof.
  apply (extracted_url_means_youtube_intent _
           "https://www.youtube.com/watch?v=dQw4w9WgXcQ").
  vm_compute. reflexivity.
Defined.

(** X18: the watch pattern is tried first: when a watch link with a
    well-formed id stands anywhere in the text, [extract_url] returns the
    URL of an id that follows youtube.com/watch?v= in the text, also when
    a youtu.be or embed link comes earlier. *)
Theorem watch_link_wins (a id b : string) :
  is_video_id id = true ->
  let text := a ++ "youtube.com/watch?v=" ++ id ++ b in
  exists a' id' b',
    text = a' ++ "youtube.com/watch?v=" ++ id' ++ b' /\
    is_video_id id' = true /\
    extract_url text = Some ("https://www.youtube.com/watch?v=" ++ id').
Proof.
  intros Hid text.
  assert (Hne : String.eqb text "" = false).
  { apply String.eqb_neq. intros E.
    assert (L : String.length text = 0) by now rewrite E.
    unfold text in L. rewrite !length_append in L. simpl in L. lia. }
  pose proof (search_complete (url_pattern "youtube.com/watch?v=") a _
                (run_bare_url "youtube.com/watch?v=" id b Hid)) as Hs.
  fold text in Hs.
  destruct (search (url_pattern "youtube.com/watch?v=") text) as [g|] eqn:E;
    [|contradiction].
  destruct (search_url_pattern _ _ _ E) as [a' [id' [b' [Ht [-> Hid']]]]].
  exists a', id', b'. repeat split; try assumption.
  unfold extract_url. rewrite Hne.
  unfold compiled_patterns, URL_PATTERNS. cbn [extract_url_loop].
  now rewrite E.
Qed.

Lemma watch_link_wins_witness :
  exists a' id' b',
    "youtu.be/aaaaaaaaaaa or youtube.com/watch?v=bbbbbbbbbbb"
      = a' ++ "youtube.com/watch?v=" ++ id' ++ b' /\
    is_video_id id' = true /\
    extract_url "youtu.be/aaaaaaaaaaa or youtube.com/watch?v=bbbbbbbbbbb"
      = Some ("https://www.youtube.com/watch?v=" ++ id').
Proof.
  apply (watch_link_wins "youtu.be/aaaaaaaaaaa or " "bbbbbbbbbbb" "").
  vm_compute. reflexivity.
Defined.

(** X25: for a URL that [extract_url] found, [get_transcript] (with the
    API installed) asks the API first for the id of that URL in the
    preferred language; when the API answers, the transcript is the texts
    of the segments joined by single spaces, and no second call is made. *)
Theorem get_transcript_of_extracted_url (fetch : transcript_api)
    (text url language : string) (segments : list segment) :
  extract_url text = Some url ->
  (forall id, fetch (id, Some [language]) = inr segments) ->
  exists id,
    url = "https://www.youtube.com/watch?v=" ++ id /\
    is_video_id id = true /\
    get_transcript true fetch url language
      = ([(id, Some [language])], Some (join " " (map YouTubeService.text segments))).
Proof.
  intros Hurl Hfetch.
  unfold extract_url in Hurl. destruct (String.eqb text ""); [discriminate|].
  apply extract_url_loop_sound in Hurl as [p [g [Hin [Hs ->]]]].
  assert (K : exists id, g = Some id /\ is_video_id id = true).
  { unfold compiled_patterns, URL_PATTERNS in Hin. cbn [In] in Hin.
    repeat (destruct Hin as [<-|Hin];
            [apply search_url_pattern in Hs as [a [id [b [_ [-> Hid]]]]];
             now exists id|]).
    destruct Hin. }
  destruct K as [id [-> Hid]]. exists id. cbn [format_group].
  split; [reflexivity|]. split; [exact Hid|].
  pose proof (hd_full_url "youtube.com/watch?v=" id "" Hid) as Hhd.
  rewrite !append_nil_r in Hhd.
  change ("https://www." ++ "youtube.com/watch?v=" ++ id)
    with ("https://www.youtube.com/watch?v=" ++ id) in Hhd.
  destruct (run (url_pattern "youtube.com/watch?v=")
                ("https://www.youtube.com/watch?v=" ++ id) None)
    as [|st l] eqn:E; [discriminate|].
  injection Hhd as ->. apply search_here in E. cbn [snd] in E.
  unfold get_transcript, extract_video_id, compiled_patterns, URL_PATTERNS.
  cbn [negb extract_video_id_loop]. rewrite E.
  assert (Hne : String.eqb id "" = false).
  { apply String.eqb_neq. intros ->. discriminate. }
  rewrite Hne. cbv zeta. now rewrite Hfetch.
Qed.

Lemma get_transcript_of_extracted_url_witness :
  exists id,
    "https://www.youtube.com/watch?v=dQw4w9WgXcQ"
      = "https://www.youtube.com/watch?v=" ++ id /\
    is_video_id id = true /\
    get_transcript true
      (fun _ => inr [ {| text := "hello"; start := 0; duration := 1 |};
                      {| text := "world"; start := 1; duration := 1 |} ])
      "https://www.youtube.com/watch?v=dQw4w9WgXcQ" "en"
      = ([(id, Some ["en"])], Some "hello world").
Proof.
  apply (get_transcript_of_extracted_url
           (fun _ => inr [ {| text := "hello"; start := 0; duration := 1 |};
                           {| text := "world"; start := 1; duration := 1 |} ])
           "see youtu.be/dQw4w9WgXcQ"
           "https://www.youtube.com/watch?v=dQw4w9WgXcQ" "en"
           [ {| text := "hello"; start := 0; duration := 1 |};
             {| text := "world"; start := 1; duration := 1 |} ]).
  - vm_compute. reflexivity.
  - reflexivity.
Defined.

End YouTubeServiceSpec.

(** ** Properties of the endpoint *)

Module BackendSpec.
Import PyStr PyStrFacts Validators Backend.

(** *** Helpers *)

Lemma pbind_done {A B : Type} (ev : list event) (a : A) (k : A -> P B) :
  pbind (ev, Done a) k = ((ev ++ fst (k a))%list, snd (k a)).
Proof. unfold pbind. now destruct (k a). Qed.

Lemma pbind_failed {A B : Type} (ev : list event) (f : failure) (k : A -> P B) :
  pbind (ev, Failed f) k = (ev, Failed f).
Proof. reflexivity. Qed.

(** What the endpoint does once the file step is over: one request to
    the provider, then the reply, unless the provider raised something
    that is not an [Exception], which then leaves the endpoint. *)
Lemma process_request_run (w : collaborators) (text : string)
    (file : option upload) (ev0 : list event) (c0 : string) (fi0 : file_info) :
  String.eqb (strip text) "" && negb (given file) = false ->
  file_step w text file = (ev0, Done (c0, fi0)) ->
  exists ceiling prompt,
    (exists d r,
        TaskExecutor.execute
          (IntentDetector.detect text
             (given file || given (YouTubeService.extract_url text)))
          (fst (after_youtube w text c0 fi0)) text (provider w)
          = ([TaskExecutor.prompt_request ceiling prompt],
             TaskExecutor.Returned d) /\
        TaskExecutor.lookup d "result" = Some (TaskExecutor.Str r) /\
        exists rep,
          process_request w text file
            = ((ev0 ++ youtube_events text ++
                [Sent (TaskExecutor.prompt_request ceiling prompt)])%list,
               inr rep) /\
          success rep = true /\
          intent rep = IntentDetector.detect text
                         (given file || given (YouTubeService.extract_url text)) /\
          result rep = TaskExecutor.Str r /\
          youtube (reply_metadata rep)
            = get_default (fi_youtube (snd (after_youtube w text c0 fi0)))
                          (PBool false)) \/
    (exists e,
        TaskExecutor.execute
          (IntentDetector.detect text
             (given file || given (YouTubeService.extract_url text)))
          (fst (after_youtube w text c0 fi0)) text (provider w)
          = ([TaskExecutor.prompt_request ceiling prompt],
             TaskExecutor.Raised e) /\
        TaskExecutor.is_exception e = false /\
        provider w (TaskExecutor.prompt_request ceiling prompt)
          = TaskExecutor.Raised e /\
        process_request w text file
          = ((ev0 ++ youtube_events text ++
              [Sent (TaskExecutor.prompt_request ceiling prompt)])%list,
             inl (Other e))).
Proof.
  intros Hguard Hfile.
  destruct (TaskExecutorMore.execute_cases
              (IntentDetector.detect text
                 (given file || given (YouTubeService.extract_url text)))
              (fst (after_youtube w text c0 fi0)) text (provider w))
    as [ceiling [prompt [[d [r [Hex Hr]]]|[e [Hex [He Hc]]]]]];
    exists ceiling, prompt; [left; exists d, r | right; exists e];
    (split; [exact Hex|]).
  - split; [exact Hr|].
    unfold process_request, process_body. rewrite Hguard.
    unfold file_step in Hfile. rewrite Hfile.
    unfold after_youtube, youtube_events in *.
    destruct (YouTubeService.extract_url text) as [url|];
      [destruct (get_transcript w url) as [t|];
       [destruct (negb (String.eqb t ""))|]|];
      cbn [pbind pret emit fst snd app] in *;
      rewrite Hex; cbn [map app pbind pret emit fst snd]; rewrite Hr;
      cbn [pbind pret fst snd app]; rewrite ?app_nil_r;
      (eexists; split; [reflexivity|]); cbn; repeat split; reflexivity.
  - split; [exact He|]. split; [exact Hc|].
    unfold process_request, process_body. rewrite Hguard.
    unfold file_step in Hfile. rewrite Hfile.
    unfold after_youtube, youtube_events in *.
    destruct (YouTubeService.extract_url text) as [url|];
      [destruct (get_transcript w url) as [t|];
       [destruct (negb (String.eqb t ""))|]|];
      cbn [pbind pret emit fst snd app] in *;
      rewrite Hex; cbn [map app pbind pret emit fst snd]; rewrite He;
      rewrite ?app_nil_r; reflexivity.
Qed.

Lemma process_request_no_input (w : collaborators) (text : string)
    (file : option upload) :
  String.eqb (strip text) "" && negb (given file) = true ->
  process_request w text file
    = ([], inl (Http {| status_code := 400;
                        detail := "Either text or file must be provided" |})).
Proof.
  intros H. unfold process_request, process_body. now rewrite H.
Qed.

Lemma process_request_file_failed (w : collaborators) (text : string)
    (file : option upload) (ev0 : list event) (f : failure) :
  String.eqb (strip text) "" && negb (given file) = false ->
  file_step w text file = (ev0, Failed f) ->
  process_request w text file =
    (ev0,
     inl match f with
         | Http e => Http e
         | Other e =>
             if TaskExecutor.is_exception e then
               Http {| status_code := 500;
                       detail := "Internal server error: " ++
                                 TaskExecutor.str e |}
             else Other e
         end).
Proof.
  intros Hg Hf. unfold process_request, process_body. rewrite Hg.
  unfold file_step in Hf. rewrite Hf. cbn [pbind pret app].
  destruct f as [e|e]; [reflexivity|]. now destruct (TaskExecutor.is_exception e).
Qed.

(** Every allowed content type has its processor. *)
Lemma allowed_routes (ct : string) :
  allowed (Some ct) = true ->
  startswith ct "image/" = true \/ ct = "application/pdf" \/
  (startswith ct "image/" = false /\ String.eqb ct "application/pdf" = false /\
   startswith ct "audio/" = true).
Proof.
  unfold allowed. rewrite existsb_exists. intros [t [Hin Ht]].
  apply String.eqb_eq in Ht. subst t.
  unfold ALLOWED_MIME_TYPES in Hin. cbn [In] in Hin.
  repeat (destruct Hin as [<-|Hin];
          [first [left; reflexivity
                 | right; left; reflexivity
                 | right; right; repeat split; reflexivity]|]).
  destruct Hin.
Qed.

(** The file step: what it records and how it can fail. *)
Lemma process_file_cases (w : collaborators) (text : string) (f : upload) :
  (exists e, process_file w text f = ([], Failed (Http e)) /\
             (status_code e = 413 \/ status_code e = 415)) \/
  ((file_size f <= MAX_FILE_SIZE)%N /\
   (exists ct, content_type f = Some ct /\ In ct ALLOWED_MIME_TYPES) /\
   ((exists e, save_upload w f = TaskExecutor.Raised e /\
               process_file w text f = ([Save f], Failed (Other e))) \/
    (exists m path,
        fst (process_file w text f) = [Save f; Processed m path] /\
        ((exists err,
             fi_error (processor w m path) = Some err /\
             snd (process_file w text f)
               = Failed (Http {| status_code := 500;
                                 detail := "File processing error: " ++ err |})) \/
         (exists c,
             fi_error (processor w m path) = None /\
             snd (process_file w text f) = Done (c, processor w m path)))))).
Proof.
  unfold process_file, validate_file_size, validate_file_type.
  destruct (MAX_FILE_SIZE <? file_size f)%N eqn:Esize.
  { left. eexists. split; [reflexivity|]. now left. }
  apply N.ltb_ge in Esize.
  destruct (allowed (content_type f)) eqn:Eal; cbn [negb].
  2:{ left. eexists. split; [reflexivity|]. now right. }
  right. split; [exact Esize|].
  destruct (content_type f) as [ct|] eqn:Ect; [|discriminate].
  split.
  { exists ct. split; [reflexivity|].
    unfold allowed in Eal. apply existsb_exists in Eal as [t [Hin Ht]].
    apply String.eqb_eq in Ht. now subst t. }
  cbn [check pbind pret emit app].
  destruct (save_upload w f) as [path|e]; cbn [pbind pret pfail app].
  2:{ left. now exists e. }
  right.
  destruct (allowed_routes ct Eal) as [Hi|[->|[Hi [Hp Ha]]]].
  - rewrite Hi. exists "process_image", path.
    change (processor w "process_image") with (process_image w).
    cbn [emit pbind pret app fst snd].
    destruct (fi_error (process_image w path)) as [err|] eqn:Eerr.
    + split; [reflexivity|]. left. exists err. now split.
    + destruct (fi_text (process_image w path)) as [x|];
        [destruct (negb (String.eqb x ""))|];
        (split; [reflexivity|]); right; eexists; split; reflexivity.
  - assert (E1 : startswith "application/pdf" "image/" = false) by reflexivity.
    rewrite E1, String.eqb_refl.
    exists "process_pdf", path.
    change (processor w "process_pdf") with (process_pdf w).
    cbn [emit pbind pret app fst snd].
    destruct (fi_error (process_pdf w path)) as [err|] eqn:Eerr.
    + split; [reflexivity|]. left. exists err. now split.
    + destruct (fi_text (process_pdf w path)) as [x|];
        [destruct (negb (String.eqb x ""))|];
        (split; [reflexivity|]); right; eexists; split; reflexivity.
  - rewrite Hi, Hp, Ha. exists "process_audio", path.
    change (processor w "process_audio") with (process_audio w).
    cbn [emit pbind pret app fst snd].
    destruct (fi_error (process_audio w path)) as [err|] eqn:Eerr.
    + split; [reflexivity|]. left. exists err. now split.
    + destruct (fi_text (process_audio w path)) as [x|];
        [destruct (negb (String.eqb x ""))|];
        (split; [reflexivity|]); right; eexists; split; reflexivity.
Qed.

Lemma not_blank_guard (text : string) (file : option upload) :
  strip text <> "" -> String.eqb (strip text) "" && negb (given file) = false.
Proof.
  intros H. apply String.eqb_neq in H. now rewrite H.
Qed.

(** *** Properties *)



(** X20: when the provider fails, a text-only request is still answered
    with success set; the result is the text Error executing task
    followed by the message of the failure. *)
Theorem provider_failure_reported_as_success (w : collaborators)
    (text msg : string) :
  strip text <> "" ->
  (forall req, provider w req = TaskExecutor.Raised (TaskExecutor.Exception msg)) ->
  exists ev rep,
    process_request w text None = (ev, inr rep) /\
    success rep = true /\
    result rep = TaskExecutor.Str ("Error executing task: " ++ msg).
Proof.
  intros Hne Hfail.
  destruct (process_request_run w text None [] text no_info
              (not_blank_guard text None Hne) eq_refl)
    as [ceiling [prompt
         [[d [r [Hex [Hd [rep [Hrun [Hs [_ [Hr _]]]]]]]]] | [e [_ [He [Hc _]]]]]]].
  2:{ rewrite Hfail in Hc. injection Hc as <-. discriminate. }
  exists ([] ++ youtube_events text ++
          [Sent (TaskExecutor.prompt_request ceiling prompt)])%list, rep.
  split; [exact Hrun|]. split; [exact Hs|]. rewrite Hr. do 2 f_equal.
  destruct (TaskExecutorMore.selected_handler_is_ask
              (IntentDetector.detect text
                 (given (@None upload) || given (YouTubeService.extract_url text)))
              (fst (after_youtube w text text no_info)) text)
    as [c' [p' [l' [H _]]]].
  rewrite (TaskExecutorMore.execute_ask _ _ _ (provider w) _ _ _ H), Hfail in Hex.
  cbn [TaskExecutor.is_exception] in Hex.
  injection Hex as _ _ <-. cbn in Hd. now injection Hd as <-.
Qed.

Lemma provider_failure_reported_as_success_witness :
  exists ev rep,
    process_request
      (sample_world (TaskExecutor.failing "Connection error.") None)
      "Please summarize this" None = (ev, inr rep) /\
    success rep = true /\
    result rep = TaskExecutor.Str "Error executing task: Connection error.".
Proof.
  apply provider_failure_reported_as_success.
  - vm_compute. discriminate.
  - reflexivity.
Defined.

Lemma marker_in_content (text t : string) :
  str_in TaskExecutor.youtube_marker
         (text ++ TaskExecutor.nl ++ TaskExecutor.nl ++
          "[YouTube Transcript]:" ++ TaskExecutor.nl ++ t) = true.
Proof.
  apply str_in_iff.
  exists (text ++ TaskExecutor.nl ++ TaskExecutor.nl), (TaskExecutor.nl ++ t).
  unfold TaskExecutor.youtube_marker. now rewrite !append_assoc.
Qed.

(** X21: when the text holds a YouTube URL and the service returns a
    transcript that is not empty, the one request sent to the provider is
    the summary prompt or the sentiment prompt over the text followed by
    the marker [YouTube Transcript]: and the transcript; whatever a file
    gave before is not part of it.  The reply has the intent
    youtube_transcript and youtube set; there is no reply only when the
    provider raised, on that request, an exception that is not an
    instance of Exception. *)
Theorem transcript_reaches_provider (w : collaborators) (text : string)
    (file : option upload) (ev0 : list event) (c0 : string) (fi0 : file_info)
    (url t : string) :
  file_step w text file = (ev0, Done (c0, fi0)) ->
  YouTubeService.extract_url text = Some url ->
  get_transcript w url = Some t ->
  t <> "" ->
  let content := text ++ TaskExecutor.nl ++ TaskExecutor.nl ++
                 "[YouTube Transcript]:" ++ TaskExecutor.nl ++ t in
  exists req,
    fst (process_request w text file)
      = (ev0 ++ [TranscriptAsked url; Sent req])%list /\
    (req = TaskExecutor.prompt_request 1500
             (TaskExecutor.summary_template ++ content ++ TaskExecutor.nl) \/
     req = TaskExecutor.prompt_request 500
             (TaskExecutor.sentiment_template ++ content ++ TaskExecutor.nl)) /\
    ((exists rep,
         snd (process_request w text file) = inr rep /\
         intent rep = "youtube_transcript" /\
         youtube (reply_metadata rep) = PBool true) \/
     (exists e,
         snd (process_request w text file) = inl (Other e) /\
         TaskExecutor.is_exception e = false /\
         provider w req = TaskExecutor.Raised e)).
Proof.
  intros Hfile Hurl Htr Hne content.
  assert (Hg : String.eqb (strip text) "" && negb (given file) = false)
    by now rewrite (YouTubeServiceSpec.extract_url_not_blank _ _ Hurl).
  assert (Hafter : after_youtube w text c0 fi0 = (content, set_youtube fi0)).
  { unfold after_youtube. rewrite Hurl, Htr.
    apply String.eqb_neq in Hne. now rewrite Hne. }
  assert (Hdet : IntentDetector.detect text
                   (given file || given (YouTubeService.extract_url text))
                 = "youtube_transcript").
  { destruct (YouTubeServiceSpec.extract_url_keyword _ _ Hurl) as [kw [Hin Hkw]].
    exact (YouTubeServiceSpec.youtube_keyword_detected _ kw _ Hin Hkw). }
  pose proof (TaskExecutorSpec.handle_youtube_unfold content text) as Hh.
  change (TaskExecutor._handle_youtube content text)
    with (TaskExecutor.handlers_get TaskExecutor.handlers "youtube_transcript"
            TaskExecutor._handle_conversational content text) in Hh.
  assert (Hm : str_in TaskExecutor.youtube_marker content = true)
    by apply marker_in_content.
  rewrite Hm in Hh.
  assert (Hreq : forall ceiling prompt o,
             TaskExecutor.execute "youtube_transcript" content text (provider w)
               = ([TaskExecutor.prompt_request ceiling prompt], o) ->
             TaskExecutor.prompt_request ceiling prompt
               = TaskExecutor.prompt_request 1500
                   (TaskExecutor.summary_template ++ content ++ TaskExecutor.nl) \/
             TaskExecutor.prompt_request ceiling prompt
               = TaskExecutor.prompt_request 500
                   (TaskExecutor.sentiment_template ++ content ++ TaskExecutor.nl)).
  { intros ceiling prompt o Hex.
    destruct (TaskExecutor.asks_sentiment text && negb (TaskExecutor.asks_summary text));
      rewrite (TaskExecutorMore.execute_ask _ _ _ (provider w) _ _ _ Hh) in Hex;
      apply (f_equal fst) in Hex; cbn [fst] in Hex;
      assert (E : TaskExecutor.prompt_request ceiling prompt
                  = hd (TaskExecutor.prompt_request ceiling prompt)
                       [TaskExecutor.prompt_request ceiling prompt])
        by reflexivity;
      rewrite <- Hex in E; cbn [hd] in E; rewrite E; [now right | now left]. }
  destruct (process_request_run w text file ev0 c0 fi0 Hg Hfile)
    as [ceiling [prompt
         [[d [r [Hex [_ [rep [Hrun [_ [Hi [_ Hy]]]]]]]]] | [e [Hex [He [Hc Hrun]]]]]]];
    rewrite Hafter, Hdet in Hex; cbn [fst] in Hex;
    unfold youtube_events in Hrun; rewrite Hurl in Hrun;
    exists (TaskExecutor.prompt_request ceiling prompt);
    rewrite Hrun; cbn [fst snd]; (split; [reflexivity|]);
    (split; [exact (Hreq _ _ _ Hex)|]).
  - left. exists rep. rewrite Hafter in Hy. rewrite Hdet in Hi. now repeat split.
  - right. now exists e.
Qed.

Lemma transcript_reaches_provider_witness :
  let w := sample_world (TaskExecutor.answering "A talk.")
                        (Some "hello and welcome") in
  let text := "what is the tone of youtu.be/dQw4w9WgXcQ" in
  let content := text ++ TaskExecutor.nl ++ TaskExecutor.nl ++
                 "[YouTube Transcript]:" ++ TaskExecutor.nl ++
                 "hello and welcome" in
  exists req,
    fst (process_request w text None)
      = ([] ++ [TranscriptAsked "https://www.youtube.com/watch?v=dQw4w9WgXcQ";
                Sent req])%list /\
    (req = TaskExecutor.prompt_request 1500
             (TaskExecutor.summary_template ++ content ++ TaskExecutor.nl) \/
     req = TaskExecutor.prompt_request 500
             (TaskExecutor.sentiment_template ++ content ++ TaskExecutor.nl)) /\
    ((exists rep,
         snd (process_request w text None) = inr rep /\
         intent rep = "youtube_transcript" /\
         youtube (reply_metadata rep) = PBool true) \/
     (exists e,
         snd (process_request w text None) = inl (Other e) /\
         TaskExecutor.is_exception e = false /\
         provider w req = TaskExecutor.Raised e)).
Proof.
  intros w text content.
  apply (transcript_reaches_provider w text None [] text no_info
           "https://www.youtube.com/watch?v=dQw4w9WgXcQ" "hello and welcome").
  - reflexivity.
  - vm_compute. reflexivity.
  - reflexivity.
  - discriminate.
Defined.

(** The events of a request are those of the file step, then at most
    one question to the transcript service, then at most one request to
    the provider. *)
Lemma process_request_events (w : collaborators) (text : string)
    (file : option upload) :
  exists tail,
    fst (process_request w text file)
      = (fst (file_step w text file) ++ tail)%list /\
    (forall e, In e tail ->
               (exists u, e = TranscriptAsked u) \/ (exists r, e = Sent r)).
Proof.
  destruct (String.eqb (strip text) "" && negb (given file)) eqn:Hg.
  - rewrite (process_request_no_input _ _ _ Hg).
    destruct file as [f|]; [now rewrite andb_false_r in Hg|].
    exists []. cbn. split; [reflexivity | intros e []].
  - destruct (file_step w text file) as [ev0 [[c0 fi0]|f]] eqn:Hf.
    + assert (Htail : forall ceiling prompt e,
                 In e (youtube_events text ++
                       [Sent (TaskExecutor.prompt_request ceiling prompt)])%list ->
                 (exists u, e = TranscriptAsked u) \/ (exists r, e = Sent r)).
      { intros ceiling prompt e He. apply in_app_or in He as [He|[<-|[]]].
        - unfold youtube_events in He.
          destruct (YouTubeService.extract_url text) as [u|]; [|destruct He].
          destruct He as [<-|[]]. left. now exists u.
        - right. now eexists. }
      destruct (process_request_run w text file ev0 c0 fi0 Hg Hf)
        as [ceiling [prompt
             [[d [r [_ [_ [rep [Hrun _]]]]]] | [e [_ [_ [_ Hrun]]]]]]];
        rewrite Hrun; cbn [fst];
        exists (youtube_events text ++
                [Sent (TaskExecutor.prompt_request ceiling prompt)])%list;
        (split; [reflexivity | apply Htail]).
    + rewrite (process_request_file_failed _ _ _ _ _ Hg Hf). cbn [fst].
      exists []. rewrite app_nil_r. split; [reflexivity | intros e []].
Qed.

(** X22: an upload is saved and handed to a processor only after both
    validators passed: its size is at most 10 MiB and its content type is
    one of the allowed types. *)
Theorem upload_checked_before_use (w : collaborators) (text : string)
    (file : option upload) (e : event) :
  In e (fst (process_request w text file)) ->
  (exists f, e = Save f) \/ (exists m path, e = Processed m path) ->
  exists f ct,
    file = Some f /\
    (file_size f <= 10 * 1024 * 1024)%N /\
    content_type f = Some ct /\
    In ct ALLOWED_MIME_TYPES.
Proof.
  intros Hin Hkind.
  destruct (process_request_events w text file) as [tail [Hev Htail]].
  rewrite Hev in Hin. apply in_app_or in Hin as [Hin|Hin].
  2:{ destruct (Htail e Hin) as [[u ->]|[r ->]];
        destruct Hkind as [[f Hk]|[m [p Hk]]]; discriminate. }
  destruct file as [f|]; [|destruct Hin].
  unfold file_step in Hin.
  destruct (process_file_cases w text f)
    as [[e0 [H0 _]]|[Hsize [[ct [Hct Hal]] _]]].
  - rewrite H0 in Hin. destruct Hin.
  - now exists f, ct.
Qed.

Lemma upload_checked_before_use_witness :
  exists f ct,
    Some {| filename := Some "notes.pdf";
            content_type := Some "application/pdf";
            file_size := 2048 |} = Some f /\
    (file_size f <= 10 * 1024 * 1024)%N /\
    content_type f = Some ct /\
    In ct ALLOWED_MIME_TYPES.
Proof.
  apply (upload_checked_before_use
           (sample_world (TaskExecutor.answering "ok") None) "summarize"
           (Some {| filename := Some "notes.pdf";
                    content_type := Some "application/pdf";
                    file_size := 2048 |})
           (Save {| filename := Some "notes.pdf";
                    content_type := Some "application/pdf";
                    file_size := 2048 |})).
  - vm_compute. now left.
  - left. now eexists.
Defined.

(** X23: the endpoint answers with status 400 only when there is no
    file and the text is blank; the branch for an unsupported file type
    is never taken, because every allowed content type has a processor. *)
Theorem bad_request_only_without_input (w : collaborators) (text : string)
    (file : option upload) (ev : list event) (e : HTTPException) :
  process_request w text file = (ev, inl (Http e)) ->
  status_code e = 400 ->
  file = None /\ strip text = "" /\ ev = [] /\
  detail e = "Either text or file must be provided".
Proof.
  intros Hrun Hst.
  destruct (String.eqb (strip text) "" && negb (given file)) eqn:Hg.
  - rewrite (process_request_no_input _ _ _ Hg) in Hrun.
    injection Hrun as <- <-.
    apply andb_true_iff in Hg as [Ht Hf]. apply String.eqb_eq in Ht.
    destruct file; [discriminate|]. now repeat split.
  - exfalso.
    destruct (file_step w text file) as [ev0 [[c0 fi0]|f]] eqn:Hf.
    + destruct (process_request_run w text file ev0 c0 fi0 Hg Hf)
        as [ceiling [prompt
             [[d [r [_ [_ [rep [Hrun' _]]]]]] | [e0 [_ [_ [_ Hrun']]]]]]];
        rewrite Hrun' in Hrun; discriminate.
    + rewrite (process_request_file_failed _ _ _ _ _ Hg Hf) in Hrun.
      destruct file as [f0|]; [|discriminate].
      unfold file_step in Hf.
      destruct (process_file_cases w text f0)
        as [[e0 [H0 Hs0]]
           |[_ [_ [[e0 [_ H0]]
                  |[m [p [_ [[err [_ H0]]|[c [_ H0]]]]]]]]]].
      * rewrite H0 in Hf. injection Hf as _ <-.
        injection Hrun as _ <-.
        destruct Hs0 as [Hs0|Hs0]; rewrite Hs0 in Hst; discriminate.
      * rewrite H0 in Hf. injection Hf as _ <-.
        destruct (TaskExecutor.is_exception e0); [|discriminate].
        injection Hrun as _ <-. discriminate.
      * rewrite Hf in H0. cbn [snd] in H0. injection H0 as ->.
        injection Hrun as _ <-. discriminate.
      * rewrite Hf in H0. discriminate.
Qed.

Lemma bad_request_only_without_input_witness :
  @None upload = None /\ strip "   " = "" /\ @nil event = [] /\
  "Either text or file must be provided"
    = "Either text or file must be provided".
Proof.
  apply (bad_request_only_without_input
           (sample_world (TaskExecutor.answering "ok") None) "   " None []
           {| status_code := 400;
              detail := "Either text or file must be provided" |});
    reflexivity.
Defined.

(** X24: when the processor that was called for an upload puts an error
    entry in its dictionary, the request ends there with status 500 and
    the message File processing error followed by the error: the upload
    was saved and processed, and neither the transcript service nor the
    provider is called. *)
Theorem processor_error_stops_request (w : collaborators) (text : string)
    (f : upload) (m path err : string) :
  In (Processed m path) (fst (process_request w text (Some f))) ->
  fi_error (processor w m path) = Some err ->
  process_request w text (Some f) =
    ([Save f; Processed m path],
     inl (Http {| status_code := 500;
                  detail := "File processing error: " ++ err |})).
Proof.
  intros Hin Herr.
  assert (Hg : String.eqb (strip text) "" && negb (given (Some f)) = false)
    by apply andb_false_r.
  destruct (process_request_events w text (Some f)) as [tail [Hev Htail]].
  rewrite Hev in Hin. apply in_app_or in Hin as [Hin|Hin].
  2:{ destruct (Htail _ Hin) as [[u Hu]|[r Hr]]; discriminate. }
  unfold file_step in Hin.
  destruct (process_file_cases w text f)
    as [[e0 [H0 _]]
       |[_ [_ [[e0 [_ H0]]
              |[m' [p' [Hfst [[err' [Herr' H0]]|[c [Hnone H0]]]]]]]]]].
  - rewrite H0 in Hin. destruct Hin.
  - rewrite H0 in Hin. destruct Hin as [Hin|[]]. discriminate.
  - rewrite Hfst in Hin. destruct Hin as [Hin|[Hin|[]]]; [discriminate|].
    injection Hin as -> ->.
    rewrite Herr in Herr'. injection Herr' as <-.
    assert (Hf : file_step w text (Some f)
                 = ([Save f; Processed m path],
                    Failed (Http {| status_code := 500;
                                    detail := "File processing error: " ++ err |}))).
    { unfold file_step. destruct (process_file w text f) as [ev o].
      cbn [fst snd] in Hfst, H0. now subst. }
    now rewrite (process_request_file_failed _ _ _ _ _ Hg Hf).
  - rewrite Hfst in Hin. destruct Hin as [Hin|[Hin|[]]]; [discriminate|].
    injection Hin as -> ->. rewrite Herr in Hnone. discriminate.
Qed.

Lemma processor_error_stops_request_witness :
  process_request (broken_ocr "OCR not available") "what is this?"
    (Some {| filename := Some "scan.png"; content_type := Some "image/png";
             file_size := 4096 |}) =
    ([Save {| filename := Some "scan.png"; content_type := Some "image/png";
              file_size := 4096 |};
      Processed "process_image" "/tmp/tmpab12cd.png"],
     inl (Http {| status_code := 500;
                  detail := "File processing error: OCR not available" |})).
Proof.
  apply processor_error_stops_request.
  - vm_compute. right. now left.
  - reflexivity.
Defined.

End BackendSpec.
